(** * RESUME dashboard: entry validation, record store, loader, filters, export

    A shallow embedding of [app.py].  Python scalars are the inductive
    [value]; the entry [dict] is a [gmap string value]; a pandas frame is a
    list of typed columns with a list of rows; the SQLite file, Streamlit's
    cache, the widgets' output and the logger live in one explicit [World]
    threaded through a state-and-exception monad [M].  What the third-party
    libraries compute on inputs that the program does not fix (date parsing,
    the regular-expression engine beyond plain patterns, SQLite's numeric
    coercion of text, float and timestamp rendering, the survival fitters)
    is a parameter of the development, the record [Externals]. *)

From stdpp Require Import base gmap strings list sorting pretty.
From Stdlib Require Import ZArith Ascii String.

Local Open Scope string_scope.
Local Open Scope list_scope.

(** ** Python values and exceptions *)

(** A scalar held in the entry dict, in a table cell or in a frame cell.
    [VInt] is a Python int (and the integral float pandas makes of it in a
    float64 column); [VNone] is None, SQL NULL, NaN and NaT; [VTime] is a
    pandas Timestamp in nanoseconds since the epoch. *)
Inductive value :=
| VInt (z : Z)
| VStr (s : string)
| VNone
| VTime (t : Z).

#[global] Instance value_eq_dec : EqDecision value.
Proof. solve_decision. Defined.

Inductive exn :=
| KeyError (key : string)
| TypeError (msg : string)
| ValueError (msg : string)
| NameError (name : string)
| UnboundLocalError (name : string)
| ReError (msg : string)
| SqliteError (msg : string)      (* sqlite3.Error and its subclasses *)
| DatabaseError (msg : string)    (* pandas.errors.DatabaseError *)
| RerunException.                 (* st.rerun(): derives from BaseException *)

#[global] Instance exn_eq_dec : EqDecision exn.
Proof. solve_decision. Defined.

(** [isinstance(e, Exception)] and [isinstance(e, sqlite3.Error)]. *)
Definition is_Exception (e : exn) : bool :=
  match e with RerunException => false | _ => true end.

Definition is_sqlite3_Error (e : exn) : bool :=
  match e with SqliteError _ => true | _ => false end.

Definition quoted (s : string) : string := "'" +:+ s +:+ "'".

(** [str(e)], as interpolated by the f-strings of the log and error lines. *)
Definition exn_str (e : exn) : string :=
  match e with
  | KeyError k => quoted k
  | TypeError m | ValueError m | ReError m | SqliteError m | DatabaseError m => m
  | NameError n => "name " +:+ quoted n +:+ " is not defined"
  | UnboundLocalError n =>
      "cannot access local variable " +:+ quoted n +:+
      " where it is not associated with a value"
  | RerunException => EmptyString
  end.

Definition dquote : string := String (ascii_of_nat 34) EmptyString.

Definition is_timestamp (v : value) : bool :=
  match v with VTime _ => true | _ => false end.

Definition type_name (v : value) : string :=
  match v with
  | VInt _ => "int" | VStr _ => "str" | VNone => "NoneType" | VTime _ => "Timestamp"
  end.

(** ** Results of code that may raise *)

Inductive result (A : Type) :=
| Ok (a : A)
| Raise (e : exn).
Arguments Ok {A} a.
Arguments Raise {A} e.

#[global] Instance result_ret : MRet result := λ A a, Ok a.
#[global] Instance result_bind : MBind result := λ A B f r,
  match r with Ok a => f a | Raise e => Raise e end.

Definition is_Ok {A} (r : result A) : bool :=
  match r with Ok _ => true | Raise _ => false end.

(** [for x in l: ...] over a body that may raise. *)
Fixpoint mapR {A B} (f : A → result B) (l : list A) : result (list B) :=
  match l with
  | [] => Ok []
  | x :: l' => y ← f x; ys ← mapR f l'; Ok (y :: ys)
  end.

Fixpoint foldR {A B} (f : B → A → result B) (b : B) (l : list A) : result B :=
  match l with
  | [] => Ok b
  | x :: l' => b' ← f b x; foldR f b' l'
  end.

(** ** Frames *)

Inductive dtype := int64 | float64 | object | datetime64.

#[global] Instance dtype_eq_dec : EqDecision dtype.
Proof. solve_decision. Defined.

(** A frame: its columns in order, each with its dtype, and its rows.  A
    cell a row does not hold reads as missing. *)
Record DataFrame := mkDataFrame {
  columns : list (string * dtype);
  rows : list (gmap string value)
}.

Record Series := mkSeries {
  s_dtype : dtype;
  s_values : list value
}.

(** [pd.DataFrame()] *)
Definition pd_DataFrame : DataFrame := mkDataFrame [] [].

(** [df.empty]: some axis has length zero. *)
Definition df_empty (df : DataFrame) : bool :=
  match columns df, rows df with
  | [], _ | _, [] => true
  | _, _ => false
  end.

Definition column_names (df : DataFrame) : list string := (columns df).*1.

Definition has_column (df : DataFrame) (c : string) : bool :=
  bool_decide (c ∈ column_names df).

Definition column_dtype (df : DataFrame) (c : string) : option dtype :=
  (λ p, p.2.2) <$> list_find (λ cd, cd.1 = c) (columns df).

Definition cell (r : gmap string value) (c : string) : value :=
  default VNone (r !! c).

(** [df[c]]: KeyError when the frame has no such column. *)
Definition df_getitem (df : DataFrame) (c : string) : result Series :=
  match column_dtype df c with
  | Some d => Ok (mkSeries d ((λ r, cell r c) <$> rows df))
  | None => Raise (KeyError c)
  end.

(** [df[mask]]: boolean indexing keeps the rows whose mask entry is True. *)
Fixpoint mask_rows {A} (l : list A) (mask : list bool) : list A :=
  match l, mask with
  | x :: l', b :: mask' => if b then x :: mask_rows l' mask' else mask_rows l' mask'
  | _, _ => []
  end.

Definition df_getitem_mask (df : DataFrame) (mask : list bool) : DataFrame :=
  mkDataFrame (columns df) (mask_rows (rows df) mask).

(** [mask1 | mask2] and [mask1 & mask2] *)
Fixpoint mask_or (m1 m2 : list bool) : list bool :=
  match m1, m2 with
  | a :: m1', b :: m2' => (a || b) :: mask_or m1' m2'
  | _, _ => []
  end.

Fixpoint mask_and (m1 m2 : list bool) : list bool :=
  match m1, m2 with
  | a :: m1', b :: m2' => (a && b) :: mask_and m1' m2'
  | _, _ => []
  end.

(** [df[cols]] for a list of labels: KeyError on a label that is no column. *)
Definition df_getitem_cols (df : DataFrame) (cols : list string) : result DataFrame :=
  cs ← mapR (λ c, match column_dtype df c with
                  | Some d => Ok (c, d)
                  | None => Raise (KeyError c)
                  end) cols;
  Ok (mkDataFrame cs ((λ r : gmap string value, filter (λ kv, kv.1 ∈ cols) r) <$> rows df)).

(** ** The world: store, cache, clock, screen and log *)

Inductive coltype := INTEGER | TEXT | REAL | TIMESTAMP.

#[global] Instance coltype_eq_dec : EqDecision coltype.
Proof. solve_decision. Defined.

(** A table of the SQLite file.  [autoinc] tells whether [id] is the
    INTEGER PRIMARY KEY AUTOINCREMENT of [create_database]; [t_seq] is the
    largest id handed out so far. *)
Record Table := mkTable {
  t_schema : list (string * coltype);
  t_autoinc : bool;
  t_seq : Z;
  t_rows : list (gmap string value)
}.

(** What a serializer call produced, kept symbolic: the frame it was
    called on. *)
Inductive payload :=
| to_csv (df : DataFrame)
| to_excel (df : DataFrame)
| to_json (df : DataFrame).

Inductive ui_event :=
| st_error_ev (msg : string)
| st_warning_ev (msg : string)
| st_success_ev (msg : string)
| st_info_ev (msg : string)
| st_subheader_ev (msg : string)
| st_markdown_ev (msg : string)
| st_dataframe_ev (df : DataFrame)
| st_dataframe_sorted_ev (df : DataFrame) (by_column : string) (ascending : bool)
| st_download_button_ev (label : string) (data : payload) (file_name mime : string)
| st_pyplot_ev (title : string)
| st_write_ev (msg : string).

(** A call into one of the lifelines fitters, with the data it was given. *)
Inductive fit_call :=
| KaplanMeierFitter_fit (durations event_observed : list value)
| CoxPHFitter_fit (data : DataFrame).

Record World := mkWorld {
  connectable : bool;                  (* sqlite3.connect(DB_PATH) succeeds *)
  table : option Table;                (* resume_data; None: no such table *)
  cache : option (nat * DataFrame * list ui_event);  (* st.cache_data entry of load_data *)
  now : nat;                           (* seconds on the cache's timer *)
  ui : list ui_event;
  log : list string;                   (* logger.error lines *)
  fits : list fit_call;
  performance_metrics : gset string    (* keys of st.session_state.performance_metrics *)
}.

Definition set_table (t : option Table) (w : World) : World :=
  mkWorld (connectable w) t (cache w) (now w) (ui w) (log w) (fits w) (performance_metrics w).
Definition set_cache (c : option (nat * DataFrame * list ui_event)) (w : World) : World :=
  mkWorld (connectable w) (table w) c (now w) (ui w) (log w) (fits w) (performance_metrics w).
Definition add_ui (e : ui_event) (w : World) : World :=
  mkWorld (connectable w) (table w) (cache w) (now w) (ui w ++ [e]) (log w) (fits w) (performance_metrics w).
Definition add_log (l : string) (w : World) : World :=
  mkWorld (connectable w) (table w) (cache w) (now w) (ui w) (log w ++ [l]) (fits w) (performance_metrics w).
Definition add_fit (f : fit_call) (w : World) : World :=
  mkWorld (connectable w) (table w) (cache w) (now w) (ui w) (log w) (fits w ++ [f]) (performance_metrics w).
Definition add_metric (name : string) (w : World) : World :=
  mkWorld (connectable w) (table w) (cache w) (now w) (ui w) (log w) (fits w) ({[name]} ∪ performance_metrics w).
(** Time passing between two interactions. *)
Definition elapse (dt : nat) (w : World) : World :=
  mkWorld (connectable w) (table w) (cache w) (now w + dt) (ui w) (log w) (fits w) (performance_metrics w).

(** ** The monad of the program: state and exceptions *)

Definition M (A : Type) : Type := World → result A * World.

#[global] Instance M_ret : MRet M := λ A a w, (Ok a, w).
#[global] Instance M_bind : MBind M := λ A B f m w,
  match m w with
  | (Ok a, w') => f a w'
  | (Raise e, w') => (Raise e, w')
  end.

Definition raise {A} (e : exn) : M A := λ w, (Raise e, w).
Definition lift {A} (r : result A) : M A := λ w, (r, w).
Definition get_world : M World := λ w, (Ok w, w).
Definition modify (f : World → World) : M unit := λ w, (Ok (), f w).

(** [try: body  except <class> as e: handler e] for the exceptions [catches]
    selects; the others propagate. *)
Definition try_except {A} (catches : exn → bool) (body : M A) (handler : exn → M A) : M A :=
  λ w, match body w with
       | (Raise e, w') => if catches e then handler e w' else (Raise e, w')
       | r => r
       end.

Definition st_error (msg : string) : M unit := modify (add_ui (st_error_ev msg)).
Definition st_warning (msg : string) : M unit := modify (add_ui (st_warning_ev msg)).
Definition st_success (msg : string) : M unit := modify (add_ui (st_success_ev msg)).
Definition st_info (msg : string) : M unit := modify (add_ui (st_info_ev msg)).
Definition st_subheader (msg : string) : M unit := modify (add_ui (st_subheader_ev msg)).
Definition st_markdown (msg : string) : M unit := modify (add_ui (st_markdown_ev msg)).
Definition st_dataframe (df : DataFrame) : M unit := modify (add_ui (st_dataframe_ev df)).
Definition st_dataframe_sorted (df : DataFrame) (by_column : string) (ascending : bool) : M unit :=
  modify (add_ui (st_dataframe_sorted_ev df by_column ascending)).
Definition st_pyplot (title : string) : M unit := modify (add_ui (st_pyplot_ev title)).
Definition st_write (msg : string) : M unit := modify (add_ui (st_write_ev msg)).
Definition st_download_button (label : string) (data : payload) (file_name mime : string) : M unit :=
  modify (add_ui (st_download_button_ev label data file_name mime)).
Definition st_rerun {A} : M A := raise RerunException.
Definition logger_error (msg : string) : M unit := modify (add_log msg).

(** [@monitor_performance]: after a normal return the elapsed time is filed
    under the function's name; an exception passes through untouched. *)
Definition monitor_performance {A} (name : string) (func : M A) : M A :=
  result ← func;
  modify (add_metric name);;
  mret result.

(** [with get_db_connection() as conn: body].  The generator's
    [except sqlite3.Error] sees a failing [connect] as well as an sqlite
    error thrown back into it by the body; it logs, shows the generic
    message and re-raises. *)
Definition get_db_connection {A} (body : M A) : M A :=
  try_except is_sqlite3_Error
    (w ← get_world;
     if connectable w then body
     else raise (SqliteError "unable to open database file"))
    (λ e, logger_error ("Database connection error: " +:+ exn_str e);;
          st_error "An unexpected error occurred. Please check the logs.";;
          raise e).

(** ** What the libraries decide *)

(** The library behaviour the program relies on but does not determine. *)
Record Externals := mkExternals {
  (* pd.to_datetime on one string; None when it raises *)
  to_datetime : string → option Z;
  (* re.compile(pat, re.IGNORECASE).search for a pattern that uses a regex
     operator other than the dot; None when re.error is raised *)
  re_compile_other : string → option (string → bool);
  (* what a column of INTEGER affinity stores for a text value *)
  numeric_affinity : string → value;
  (* str() of an integral float, str() of a Timestamp, and
     strftime('%Y-%m-%d %H:%M:%S') *)
  float_str : Z → string;
  timestamp_str : Z → string;
  strftime : Z → string;
  (* the exception, if any, the lifelines fitters raise on their input *)
  kmf_fit_raises : list value → list value → option exn;
  cph_fit_raises : DataFrame → option exn
}.

(** ** The record store *)

Definition TABLE_NAME : string := "resume_data".

(** The columns of [CREATE TABLE IF NOT EXISTS resume_data], in order. *)
Definition resume_schema : list (string * coltype) :=
  [ ("id", INTEGER);
    ("Age", INTEGER); ("Sex", TEXT); ("Employment_Status", TEXT);
    ("Income_Level", TEXT); ("Social_Deprivation", INTEGER);
    ("Material_Deprivation", INTEGER);
    ("Healthcare_Role", TEXT); ("Department", TEXT);
    ("Years_Experience", INTEGER); ("Weekly_Hours", INTEGER);
    ("Night_Shifts_Monthly", INTEGER); ("Overtime_Hours_Monthly", INTEGER);
    ("Patient_Facing", TEXT); ("Management_Responsibilities", TEXT);
    ("Work_Stress_Level", INTEGER); ("Job_Satisfaction", INTEGER);
    ("Workplace_Support", INTEGER); ("Burnout_Level", INTEGER);
    ("Sick_Days_Last_Year", INTEGER); ("Workplace_Incidents", INTEGER);
    ("Recent_Promotion", TEXT); ("Recent_Demotion", TEXT);
    ("MH_Disorders", TEXT); ("Substance_Use_Disorders", TEXT);
    ("History_Suicidal_Ideation", INTEGER); ("Previous_Suicide_Attempts", INTEGER);
    ("Frequency_Suicidal_Thoughts", INTEGER); ("Intensity_Suicidal_Thoughts", INTEGER);
    ("Chronic_Illnesses", TEXT); ("GP_Visits", INTEGER); ("ED_Visits", INTEGER);
    ("Hospitalizations", INTEGER);
    ("Hopelessness", INTEGER); ("Despair", INTEGER); ("Impulsivity", INTEGER);
    ("Aggression", INTEGER); ("Access_Lethal_Means", INTEGER);
    ("Social_Isolation", INTEGER);
    ("Coping_Strategies", INTEGER); ("Measured_Resilience", INTEGER);
    ("MH_Service_Engagement", INTEGER); ("Supportive_Relationships", INTEGER);
    ("Suicidal_Distress", INTEGER); ("Time_To_Crisis", INTEGER);
    ("Crisis_Event", INTEGER); ("Observation_Date", TEXT) ].

(** The table [create_database] leaves behind. *)
Definition created_table : Table := mkTable resume_schema true 0 [].

Definition schema_names (t : Table) : list string := (t_schema t).*1.

Definition schema_type (t : Table) (c : string) : option coltype :=
  (λ p, p.2.2) <$> list_find (λ cd, cd.1 = c) (t_schema t).

(** The ids in use, for the primary key. *)
Definition row_id (r : gmap string value) : option Z :=
  match r !! "id" with Some (VInt i) => Some i | _ => None end.

Definition used_ids (t : Table) : list Z := omap row_id (t_rows t).

Definition max_id (t : Table) : Z := foldr Z.max 0%Z (used_ids t).

Section Store.
Context (E : Externals).

(** Column affinity applied to a bound value. *)
Definition apply_affinity (ty : coltype) (v : value) : value :=
  match ty, v with
  | (INTEGER | REAL | TIMESTAMP), VStr s => numeric_affinity E s
  | TEXT, VInt z => VStr (pretty z)
  | _, _ => v
  end.

(** The value a statement stores in column [c]: the bound parameter after
    affinity, NULL for a column the statement does not name. *)
Definition stored_value (data : gmap string value) (cd : string * coltype) : value :=
  match data !! cd.1 with
  | Some v => apply_affinity cd.2 v
  | None => VNone
  end.

Definition stored_row (t : Table) (data : gmap string value) : gmap string value :=
  list_to_map ((λ cd, (cd.1, stored_value data cd)) <$> t_schema t).

(** [INSERT INTO resume_data (<keys>) VALUES (?, ...)] with the dict's
    values bound, then [commit].  Preparing the statement fails on an
    empty column list and on a key that is no column (the message names
    the least such key, the map not keeping the dict's insertion order);
    binding fails on a Timestamp; stepping fails on a primary key that is
    taken or is no integer.  A failed statement changes nothing. *)
Definition sql_insert (data : gmap string value) (t : Table) : result Table :=
  let keys := (map_to_list data).*1 in
  if bool_decide (keys = []) then
    Raise (SqliteError ("near " +:+ dquote +:+ ")" +:+ dquote +:+ ": syntax error"))
  else
    match list_find (λ k, k ∉ schema_names t) keys with
    | Some (_, k) =>
        Raise (SqliteError ("table " +:+ TABLE_NAME +:+ " has no column named " +:+ k))
    | None =>
        if existsb (λ kv, is_timestamp kv.2) (map_to_list data) then
          Raise (SqliteError "Error binding parameter: type 'Timestamp' is not supported")
        else
            let r := stored_row t data in
            if t_autoinc t then
              match r !! "id" with
              | Some (VInt i) =>
                  if bool_decide (i ∈ used_ids t) then
                    Raise (SqliteError ("UNIQUE constraint failed: " +:+ TABLE_NAME +:+ ".id"))
                  else
                    Ok (mkTable (t_schema t) true (Z.max (t_seq t) i) (t_rows t ++ [r]))
              | Some (VStr _) | Some (VTime _) =>
                  Raise (SqliteError "datatype mismatch")
              | Some VNone | None =>
                  let i := (Z.max (t_seq t) (max_id t) + 1)%Z in
                  Ok (mkTable (t_schema t) true i (t_rows t ++ [<["id" := VInt i]> r]))
              end
            else
              Ok (mkTable (t_schema t) false (t_seq t) (t_rows t ++ [r]))
    end.

(** [cursor.execute(INSERT ...); conn.commit()] on the open connection. *)
Definition execute_insert (data : gmap string value) : M unit :=
  w ← get_world;
  match table w with
  | None => raise (SqliteError ("no such table: " +:+ TABLE_NAME))
  | Some t =>
      t' ← lift (sql_insert data t);
      modify (set_table (Some t'))
  end.

End Store.

(** ** Entry validation and insertion *)

(** [data[k]] and [data.get(k)] *)
Definition dict_getitem (data : gmap string value) (k : string) : result value :=
  match data !! k with
  | Some v => Ok v
  | None => Raise (KeyError k)
  end.

Definition dict_get (data : gmap string value) (k : string) : value :=
  default VNone (data !! k).

(** Truth value of a scalar: zero, the empty string and None are false. *)
Definition truthy (v : value) : bool :=
  match v with
  | VInt z => negb (z =? 0)%Z
  | VStr EmptyString => false
  | VStr _ => true
  | VNone => false
  | VTime _ => true
  end.

Definition not_supported (op : string) (v : value) : exn :=
  TypeError (quoted op +:+ " not supported between instances of " +:+
             quoted (type_name v) +:+ " and 'int'").

(** [v < n] and [v > n] against an int literal. *)
Definition py_lt (v : value) (n : Z) : result bool :=
  match v with
  | VInt z => Ok (z <? n)%Z
  | _ => Raise (not_supported "<" v)
  end.

Definition py_gt (v : value) (n : Z) : result bool :=
  match v with
  | VInt z => Ok (z >? n)%Z
  | _ => Raise (not_supported ">" v)
  end.

Definition required_fields : list string :=
  ["Age"; "Sex"; "Employment_Status"; "Healthcare_Role"].

(** The loop over [required_fields]: the first field whose value is falsy
    ends it. *)
Fixpoint check_required (data : gmap string value) (fields : list string) : bool * string :=
  match fields with
  | [] => (true, EmptyString)
  | field :: rest =>
      if negb (truthy (dict_get data field)) then (false, field +:+ " is required")
      else check_required data rest
  end.

Definition validate_entry_data_try (data : gmap string value) : result (bool * string) :=
  a ← dict_getitem data "Age";
  below ← py_lt a 18;
  out_of_range ← (if (below : bool) then Ok true
                  else a' ← dict_getitem data "Age"; py_gt a' 100);
  if (out_of_range : bool) then Ok (false, "Age must be between 18 and 100")
  else Ok (check_required data required_fields).

(** [validate_entry_data]: whatever the checks raise is turned into a
    failure carrying the exception's text. *)
Definition validate_entry_data (data : gmap string value) : bool * string :=
  match validate_entry_data_try data with
  | Ok r => r
  | Raise e => (false, exn_str e)
  end.

Section Entry.
Context (E : Externals).

Definition insert_entry (data : gmap string value) : M bool :=
  monitor_performance "insert_entry"
    (try_except is_sqlite3_Error
       (let '(is_valid, error_message) := validate_entry_data data in
        if negb is_valid then
          st_error ("Validation error: " +:+ error_message);;
          mret false
        else
          get_db_connection
            (execute_insert E data;;
             mret true))
       (λ e, logger_error ("Database error: " +:+ exn_str e);;
             st_error ("⚠️ Failed to save data: " +:+ exn_str e);;
             mret false)).

End Entry.

(** ** The loader *)

(** The dtype [pd.read_sql_query] gives a column: int64 for integers only,
    float64 for integers with NULLs among them, object otherwise (text, a
    column of NULLs only, an empty result). *)
Definition is_int (v : value) : bool := match v with VInt _ => true | _ => false end.
Definition is_int_or_null (v : value) : bool :=
  match v with VInt _ | VNone => true | _ => false end.

Definition infer_dtype (vs : list value) : dtype :=
  match vs with
  | [] => object
  | _ =>
      if forallb is_int vs then int64
      else if forallb is_int_or_null vs && existsb is_int vs then float64
      else object
  end.

(** A fetched row: one value for each column of the table. *)
Definition fetched_row (names : list string) (r : gmap string value) : gmap string value :=
  list_to_map ((λ c, (c, cell r c)) <$> names).

(** The frame built from the rows a [SELECT *] fetches. *)
Definition read_frame (t : Table) : DataFrame :=
  let names := schema_names t in
  let rs := fetched_row names <$> t_rows t in
  mkDataFrame ((λ c, (c, infer_dtype ((λ r, cell r c) <$> rs))) <$> names) rs.

(** [pd.read_sql_query("SELECT * FROM resume_data", conn)] *)
Definition read_sql_query_all : M DataFrame :=
  w ← get_world;
  match table w with
  | None =>
      raise (DatabaseError ("Execution failed on sql 'SELECT * FROM " +:+ TABLE_NAME +:+
                            "': no such table: " +:+ TABLE_NAME))
  | Some t => mret (read_frame t)
  end.

(** [df[c] = new], a column replaced in place with its new dtype. *)
Definition set_column (df : DataFrame) (c : string) (d : dtype) (vs : list value) : DataFrame :=
  mkDataFrame
    ((λ cd : string * dtype, if bool_decide (cd.1 = c) then (c, d) else cd) <$> columns df)
    (zip_with (λ (r : gmap string value) v, <[c := v]> r) (rows df) vs).

(** [pd.to_numeric(series, errors='coerce')] on one cell *)
Definition to_numeric_coerce (v : value) : value :=
  match v with VInt z => VInt z | _ => VNone end.

Definition numeric_columns (df : DataFrame) : list string :=
  (filter (λ cd, cd.2 = int64 ∨ cd.2 = float64) (columns df)).*1.

Definition ttl : nat := 3600.

Section Loader.
Context (E : Externals).

(** [pd.to_datetime] on one cell of the column. *)
Definition to_datetime_cell (v : value) : result value :=
  match v with
  | VStr s =>
      match to_datetime E s with
      | Some ts => Ok (VTime ts)
      | None => Raise (ValueError ("Unknown datetime string format, unable to parse: " +:+ s))
      end
  | VInt z => Ok (VTime z)
  | VNone => Ok VNone
  | VTime ts => Ok (VTime ts)
  end.

(** What a stored cell reads as once loaded: the parsed timestamp in
    [Observation_Date], the stored value in every other column. *)
Definition loaded_cell (c : string) (v : value) : value :=
  if bool_decide (c = "Observation_Date")
  then match to_datetime_cell v with Ok v' => v' | Raise _ => VNone end
  else v.

Definition convert_timestamps (df : DataFrame) : result DataFrame :=
  if has_column df "Observation_Date" then
    s ← df_getitem df "Observation_Date";
    vs ← mapR to_datetime_cell (s_values s);
    Ok (set_column df "Observation_Date" datetime64 vs)
  else Ok df.

(** [df[col] = pd.to_numeric(df[col], errors='coerce')] *)
Definition convert_numeric_column (df : DataFrame) (col : string) : result DataFrame :=
  s ← df_getitem df col;
  Ok (set_column df col (s_dtype s) (to_numeric_coerce <$> s_values s)).

Definition convert_numeric (df : DataFrame) : result DataFrame :=
  foldR convert_numeric_column df (numeric_columns df).

(** The [try] suite of [load_data], and the function with its handler. *)
Definition load_data_try : M DataFrame :=
  get_db_connection
    (df ← read_sql_query_all;
     (* Convert timestamp columns *)
     df ← lift (convert_timestamps df);
     (* Convert numeric columns *)
     df ← lift (convert_numeric df);
     mret df).

Definition load_data_uncached : M DataFrame :=
  try_except is_Exception
    load_data_try
    (λ e, logger_error ("Data loading error: " +:+ exn_str e);;
          mret pd_DataFrame).

(** [@st.cache_data(ttl=3600)] on a function without arguments: an entry
    stored at [t] answers the calls made before [t + ttl], together with
    the elements the function showed when it ran; otherwise the function
    runs and its result is stored.  A call that raises stores nothing.
    Nothing in the program clears the entry. *)
Definition st_cache_data (func : M DataFrame) : M DataFrame := λ w,
  let run :=
    match func w with
    | (Ok df, w') =>
        (Ok df, set_cache (Some (now w', df, drop (List.length (ui w)) (ui w'))) w')
    | r => r
    end in
  match cache w with
  | Some (stored_at, df, shown) =>
      if bool_decide (now w < stored_at + ttl)%nat
      then (Ok df, foldl (λ w e, add_ui e w) w shown)
      else run
  | None => run
  end.

Definition load_data : M DataFrame := st_cache_data load_data_uncached.

End Loader.

(** ** The filter engine *)

(** *** Text matching

    Text is ASCII here: a character is a byte, and folding the case touches
    the letters A to Z only. *)

Definition ascii_lower (c : ascii) : ascii :=
  let n := nat_of_ascii c in
  if (65 <=? n)%nat && (n <=? 90)%nat then ascii_of_nat (n + 32) else c.

Definition lower (s : list ascii) : list ascii := ascii_lower <$> s.

Definition chars (s : string) : list ascii := list_ascii_of_string s.

(** The characters [re] gives a meaning of their own. *)
Definition regex_special : list ascii := chars ".^$*+?{}[]\|()".

Definition is_special (c : ascii) : bool := bool_decide (c ∈ regex_special).

Definition newline : ascii := ascii_of_nat 10.

(** A pattern whose only operator is the dot compiles to a sequence of
    tokens; under [re.IGNORECASE] a letter stands for both its cases, and
    the dot for any character but a newline. *)
Inductive token :=
| AnyChar
| Lit (c : ascii).

Definition tokenize_char (c : ascii) : option token :=
  if bool_decide (c = "."%char) then Some AnyChar
  else if is_special c then None
  else Some (Lit (ascii_lower c)).

Definition tokenize (pat : string) : option (list token) :=
  mapM tokenize_char (chars pat).

Definition token_matches (t : token) (c : ascii) : bool :=
  match t with
  | AnyChar => negb (bool_decide (c = newline))
  | Lit a => bool_decide (a = ascii_lower c)
  end.

Fixpoint match_here (ts : list token) (s : list ascii) : bool :=
  match ts, s with
  | [], _ => true
  | t :: ts', c :: s' => token_matches t c && match_here ts' s'
  | _ :: _, [] => false
  end.

(** [regex.search]: a match starting at some position. *)
Fixpoint search (ts : list token) (s : list ascii) : bool :=
  match_here ts s ||
  match s with
  | [] => false
  | _ :: s' => search ts s'
  end.

(** The criteria [display_database_front] may bind before it passes its
    [locals()] on as [filter_vars]: a name is a key of the dict exactly when
    the widget was created, hence [Some] here. *)
Record filter_vars := mkFilterVars {
  age_range : option (Z * Z);
  selected_genders : option (list value);
  selected_roles : option (list value);
  selected_departments : option (list value);
  risk_level : option (Z * Z);
  crisis_filter : option (list value)
}.

Definition no_filter_vars : filter_vars := mkFilterVars None None None None None None.

(** [series >= n] and [series <= n] for an int [n]: elementwise, a missing
    value comparing false; a datetime column, or a string or Timestamp in
    an object column, cannot be compared with an int. *)
Definition cmp_cell (op : string) (test : Z → Z → bool) (d : dtype) (n : Z) (v : value)
  : result bool :=
  match d with
  | int64 | float64 => Ok (match v with VInt z => test z n | _ => false end)
  | object =>
      match v with
      | VInt z => Ok (test z n)
      | VNone => Ok false
      | _ => Raise (not_supported op v)
      end
  | datetime64 => Raise (TypeError "Invalid comparison between dtype=datetime64[ns] and int")
  end.

Definition series_cmp (op : string) (test : Z → Z → bool) (s : Series) (n : Z)
  : result (list bool) :=
  match s_dtype s with
  | datetime64 => Raise (TypeError "Invalid comparison between dtype=datetime64[ns] and int")
  | d => mapR (cmp_cell op test d n) (s_values s)
  end.

Definition series_ge := series_cmp ">=" Z.geb.
Definition series_le := series_cmp "<=" Z.leb.

(** [series.isin(values)] *)
Definition isin (s : Series) (values : list value) : list bool :=
  (λ v, bool_decide (v ∈ values)) <$> s_values s.

(** [df.select_dtypes(include=['object']).columns] *)
Definition object_columns (df : DataFrame) : list string :=
  (filter (λ cd, cd.2 = object) (columns df)).*1.

(** [df.copy()]: frames are values here. *)
Definition df_copy (df : DataFrame) : DataFrame := df.

Section Filter.
Context (E : Externals).

(** [re.compile(pat, re.IGNORECASE)], as [str.contains] calls it with its
    default [regex=True]. *)
Definition re_compile (pat : string) : result (string → bool) :=
  match tokenize pat with
  | Some ts => Ok (λ s, search ts (chars s))
  | None =>
      match re_compile_other E pat with
      | Some matcher => Ok matcher
      | None => Raise (ReError ("invalid regular expression: " +:+ pat))
      end
  end.

(** [str(x)] of a cell of an object column, for [astype(str)]. *)
Definition py_str (v : value) : string :=
  match v with
  | VStr s => s
  | VInt z => pretty z
  | VNone => "None"
  | VTime ts => timestamp_str E ts
  end.

(** [series.astype(str).str.contains(pat, case=False, na=False)] *)
Definition astype_str_contains (s : Series) (pat : string) : result (list bool) :=
  matcher ← re_compile pat;
  Ok ((λ v, matcher (py_str v)) <$> s_values s).

Definition text_search (filtered_df : DataFrame) (search_term : string) : result DataFrame :=
  mask ← foldR (λ mask col,
                  s ← df_getitem filtered_df col;
                  hits ← astype_str_contains s search_term;
                  Ok (mask_or mask hits))
               (replicate (List.length (rows filtered_df)) false)
               (object_columns filtered_df);
  Ok (df_getitem_mask filtered_df mask).

Definition apply_filters_body (df : DataFrame) (search_term : string) (fv : filter_vars)
  : result DataFrame :=
  let filtered_df := df_copy df in
  (* Text search across all string columns *)
  filtered_df ← (if truthy (VStr search_term) then text_search filtered_df search_term
                 else Ok filtered_df);
  (* Apply other filters if they exist in the filter_vars *)
  filtered_df ← match age_range fv with
                | Some (lo, hi) =>
                    a ← df_getitem filtered_df "Age";
                    m1 ← series_ge a lo;
                    a' ← df_getitem filtered_df "Age";
                    m2 ← series_le a' hi;
                    Ok (df_getitem_mask filtered_df (mask_and m1 m2))
                | None => Ok filtered_df
                end;
  filtered_df ← match selected_genders fv with
                | Some genders =>
                    s ← df_getitem filtered_df "Sex";
                    Ok (df_getitem_mask filtered_df (isin s genders))
                | None => Ok filtered_df
                end;
  (* Add more filters as needed *)
  Ok filtered_df.

Definition apply_filters (df : DataFrame) (search_term : string) (fv : filter_vars)
  : M DataFrame :=
  monitor_performance "apply_filters" (lift (apply_filters_body df search_term fv)).

End Filter.

(** The criteria the front page binds: each widget is created, and its
    name bound, only under [if '<column>' in df.columns]. *)
Record front_input := mkFrontInput {
  in_age_range : Z * Z;
  in_genders : list value;
  in_roles : list value;
  in_departments : list value;
  in_risk_level : Z * Z;
  in_crisis : list value
}.

Definition bound_if {A} (df : DataFrame) (c : string) (x : A) : option A :=
  if has_column df c then Some x else None.

Definition front_filter_vars (df : DataFrame) (u : front_input) : filter_vars :=
  mkFilterVars
    (bound_if df "Age" (in_age_range u))
    (bound_if df "Sex" (in_genders u))
    (bound_if df "Healthcare_Role" (in_roles u))
    (bound_if df "Department" (in_departments u))
    (bound_if df "Suicidal_Distress" (in_risk_level u))
    (bound_if df "Crisis_Event" (in_crisis u)).

(** ** Survival analyses *)

(** [df[cols].dropna()]: the rows without a missing value in [cols]. *)
Definition complete_in (cols : list string) (r : gmap string value) : bool :=
  forallb (λ c, negb (bool_decide (cell r c = VNone))) cols.

Definition dropna (df : DataFrame) : DataFrame :=
  mkDataFrame (columns df) (List.filter (complete_in (column_names df)) (rows df)).

Section Analysis.
Context (E : Externals).

(** [kmf.fit(durations, event_observed, label='Overall')] *)
Definition kmf_fit (durations event_observed : list value) : M unit :=
  modify (add_fit (KaplanMeierFitter_fit durations event_observed));;
  match kmf_fit_raises E durations event_observed with
  | Some e => raise e
  | None => mret ()
  end.

(** [cph.fit(cox_data, duration_col=..., event_col=...)] *)
Definition cph_fit (cox_data : DataFrame) : M unit :=
  modify (add_fit (CoxPHFitter_fit cox_data));;
  match cph_fit_raises E cox_data with
  | Some e => raise e
  | None => mret ()
  end.

Definition display_kaplan_meier_analysis (df : DataFrame) : M unit :=
  monitor_performance "display_kaplan_meier_analysis"
    (if has_column df "Time_To_Crisis" && has_column df "Crisis_Event" then
       durations ← lift (df_getitem df "Time_To_Crisis");
       events ← lift (df_getitem df "Crisis_Event");
       kmf_fit (s_values durations) (s_values events);;
       st_pyplot "Kaplan-Meier Survival Curve"
     else
       st_warning "Required data for Kaplan-Meier analysis is not available.").

Definition covariates : list string :=
  ["Age"; "Work_Stress_Level"; "Burnout_Level"; "Social_Isolation"].

Definition display_cox_analysis (df : DataFrame) : M unit :=
  monitor_performance "display_cox_analysis"
    (try_except is_Exception
       (if forallb (has_column df) ["Time_To_Crisis"; "Crisis_Event"] then
          (* Filter required columns and handle missing values *)
          selected ← lift (df_getitem_cols df (["Time_To_Crisis"; "Crisis_Event"] ++ covariates));
          let cox_data := dropna selected in
          if (0 <? List.length (rows cox_data))%nat then
            cph_fit cox_data;;
            st_subheader "Cox Proportional Hazards Analysis";;
            st_write "None";;
            st_pyplot "Work_Stress_Level"
          else
            st_warning "Insufficient data for Cox analysis after handling missing values."
        else
          st_warning "Required columns for Cox analysis are not available.")
       (λ e, logger_error ("Error in Cox analysis: " +:+ exn_str e);;
             st_error "Error performing Cox analysis. Please check the data format.")).

End Analysis.

(** ** Showing and exporting the filtered view *)

(** What the user does with the widgets of one run. *)
Record widgets := mkWidgets {
  chosen_columns : option (list string);   (* None: the default selection is kept *)
  chosen_format : nat;                     (* position picked in the radio group *)
  export_clicked : bool;                   (* st.button("Export Data") *)
  data_editor : DataFrame → DataFrame;     (* the cells edited in st.data_editor *)
  save_clicked : bool                      (* st.button("Save Changes") *)
}.

(** [st.radio(label, options)] returns one of its options, the first one
    until another is picked. *)
Definition st_radio (options : list string) (picked : nat) : string :=
  default (default EmptyString (head options)) (options !! picked).

(** [st.multiselect(label, options, default=...)] returns options only. *)
Definition st_multiselect (options dflt : list string) (picked : option (list string))
  : list string :=
  match picked with
  | None => dflt
  | Some l => filter (λ c, c ∈ options) l
  end.

Definition default_columns : list string :=
  ["Observation_Date"; "Age"; "Sex"; "Employment_Status";
   "Healthcare_Role"; "Department"; "Suicidal_Distress";
   "Time_To_Crisis"; "Crisis_Event"].

Definition showing (filtered_df df : DataFrame) : string :=
  "**Showing " +:+ pretty (List.length (rows filtered_df)) +:+ " of " +:+
  pretty (List.length (rows df)) +:+ " records**".

(** The module binds [display_filtered_results] and [export_data] twice.
    Each [def] statement rebinds its name in the module's globals, and a
    call looks the name up when it runs, which is after the whole module
    has been executed. *)
Inductive function_object :=
| display_filtered_results_636
| export_data_668
| display_filtered_results_1253
| export_data_1296.

#[global] Instance function_object_eq_dec : EqDecision function_object.
Proof. solve_decision. Defined.

Definition module_defs : list (string * function_object) :=
  [ ("display_filtered_results", display_filtered_results_636);
    ("export_data", export_data_668);
    ("display_filtered_results", display_filtered_results_1253);
    ("export_data", export_data_1296) ].

Definition module_globals : gmap string function_object :=
  foldl (λ g d, <[d.1 := d.2]> g) ∅ module_defs.

(** The options of the radio group of each definition of [export_data]. *)
Definition export_formats (f : function_object) : list string :=
  match f with
  | export_data_668 => ["CSV"; "Excel"; "JSON"]
  | export_data_1296 => ["CSV"; "Excel"]
  | _ => []
  end.

Section Exporting.
Context (E : Externals).

(** The first definition (line 668). *)
Definition export_data_1 (u : widgets) (df : DataFrame) (selected_columns : list string)
  : M unit :=
  monitor_performance "export_data"
    (st_subheader "📤 Export Filtered Data";;
     let export_format := st_radio (export_formats export_data_668) (chosen_format u) in
     if export_clicked u then
       try_except is_Exception
         (export_df ← (match selected_columns with
                       | [] => mret df
                       | _ => lift (df_getitem_cols df selected_columns)
                       end);
          if bool_decide (export_format = "CSV") then
            st_download_button "Download CSV" (to_csv export_df)
              "resume_filtered_data.csv" "text/csv"
          else if bool_decide (export_format = "Excel") then
            st_download_button "Download Excel" (to_excel export_df)
              "resume_filtered_data.xlsx" "application/vnd.ms-excel"
          else (* JSON *)
            st_download_button "Download JSON" (to_json export_df)
              "resume_filtered_data.json" "application/json")
         (λ e, logger_error ("Export error: " +:+ exn_str e);;
               st_error ("Error exporting data: " +:+ exn_str e))
     else mret ()).

(** The second definition (line 1296). *)
Definition export_data_2 (u : widgets) (df : DataFrame) (selected_columns : list string)
  : M unit :=
  monitor_performance "export_data"
    (try_except is_Exception
       (st_subheader "📤 Export Data";;
        let export_format := st_radio (export_formats export_data_1296) (chosen_format u) in
        if export_clicked u then
          try_except is_Exception
            ((* Create a copy for export *)
             let export_df := df_copy df in
             (if bool_decide (export_format = "CSV") then
                st_download_button "Download CSV" (to_csv export_df)
                  "resume_data_export.csv" "text/csv"
              else (* Excel *)
                st_download_button "Download Excel" (to_excel export_df)
                  "resume_data_export.xlsx" "application/vnd.ms-excel");;
             st_success "Export prepared successfully!")
            (λ e, logger_error ("Export error: " +:+ exn_str e);;
                  st_error "Error during export. Please try again.")
        else mret ())
       (λ e, logger_error ("Export setup error: " +:+ exn_str e);;
             st_error "Error setting up export. Please try again.")).

(** A call [export_data(...)]: the global name, looked up as the call runs. *)
Definition export_data (u : widgets) (df : DataFrame) (selected_columns : list string)
  : M unit :=
  match module_globals !! "export_data" with
  | Some export_data_668 => export_data_1 u df selected_columns
  | Some export_data_1296 => export_data_2 u df selected_columns
  | _ => raise (NameError "export_data")
  end.

(** [series.astype(str)] on one cell of a column of dtype [d]. *)
Definition astype_str (d : dtype) (v : value) : value :=
  match d, v with
  | float64, VInt z => VStr (float_str E z)
  | float64, VNone => VStr "nan"
  | _, _ => VStr (py_str E v)
  end.

(** [series.dt.strftime('%Y-%m-%d %H:%M:%S')]: NaT stays missing. *)
Definition dt_strftime (v : value) : value :=
  match v with
  | VTime ts => VStr (strftime E ts)
  | _ => VNone
  end.

(** The loop that makes every column of the display copy a column of
    strings. *)
Definition stringify_column (display_df : DataFrame) (cd : string * dtype) : DataFrame :=
  let vs := (λ r, cell r cd.1) <$> rows display_df in
  if bool_decide (cd.2 = datetime64)
  then set_column display_df cd.1 object (dt_strftime <$> vs)
  else set_column display_df cd.1 object (astype_str cd.2 <$> vs).

Definition stringify (display_df : DataFrame) : DataFrame :=
  foldl stringify_column display_df (columns display_df).

Definition select_columns_widget (u : widgets) (filtered_df : DataFrame) : list string :=
  let all_columns := column_names filtered_df in
  st_multiselect all_columns
    (filter (λ c, c ∈ all_columns) default_columns)
    (chosen_columns u).

(** The first definition (line 636).  The table it shows is the selection
    sorted by [Observation_Date], latest first; [sort_values] raises
    KeyError unless that column is among the selected ones. *)
Definition display_filtered_results_1 (u : widgets) (filtered_df df : DataFrame) : M unit :=
  monitor_performance "display_filtered_results"
    (st_markdown (showing filtered_df df);;
     (* Column selection *)
     st_subheader "📋 Select Columns to Display";;
     let selected_columns := select_columns_widget u filtered_df in
     (match selected_columns with
      | [] => st_warning "Please select at least one column to display"
      | _ =>
          shown ← lift (df_getitem_cols filtered_df selected_columns);
          _ ← lift (df_getitem shown "Observation_Date");
          st_dataframe_sorted shown "Observation_Date" false
      end);;
     (* Export options *)
     export_data u filtered_df selected_columns).

(** The second definition (line 1253). *)
Definition display_filtered_results_2 (u : widgets) (filtered_df df : DataFrame) : M unit :=
  monitor_performance "display_filtered_results"
    (try_except is_Exception
       (st_markdown (showing filtered_df df);;
        (* Column selection *)
        st_subheader "📋 Select Columns to Display";;
        let selected_columns := select_columns_widget u filtered_df in
        match selected_columns with
        | [] => st_warning "Please select at least one column to display"
        | _ =>
            (* Convert DataFrame to display-friendly format *)
            display_df ← lift (df_getitem_cols filtered_df selected_columns);
            (* Convert all columns to strings for safe display *)
            let display_df := stringify display_df in
            (* Display as a static table *)
            st_dataframe display_df;;
            (* Export options *)
            if (0 <? List.length (rows display_df))%nat
            then export_data u display_df selected_columns
            else mret ()
        end)
       (λ e, logger_error ("Error displaying filtered results: " +:+ exn_str e);;
             st_error ("Error displaying results: " +:+ exn_str e))).

Definition display_filtered_results (u : widgets) (filtered_df df : DataFrame) : M unit :=
  match module_globals !! "display_filtered_results" with
  | Some display_filtered_results_636 => display_filtered_results_1 u filtered_df df
  | Some display_filtered_results_1253 => display_filtered_results_2 u filtered_df df
  | _ => raise (NameError "display_filtered_results")
  end.

End Exporting.

(** ** Administration: bulk replace and the recent-entries grid *)

(** The column type [to_sql] declares for a dtype. *)
Definition sql_type_of (d : dtype) : coltype :=
  match d with
  | int64 => INTEGER
  | float64 => REAL
  | object => TEXT
  | datetime64 => TIMESTAMP
  end.

(** SQLite's order on stored values: NULL first, then numbers, then text. *)
Definition sql_leb (a b : value) : bool :=
  match a, b with
  | VNone, _ => true
  | _, VNone => false
  | VInt x, VInt y => (x <=? y)%Z
  | VInt _, _ => true
  | _, VInt _ => false
  | VStr x, VStr y => String.leb x y
  | VStr _, VTime _ => true
  | VTime _, VStr _ => false
  | VTime x, VTime y => (x <=? y)%Z
  end.

Definition order_by_desc (c : string) (rs : list (gmap string value)) : list (gmap string value) :=
  merge_sort (λ r1 r2, Is_true (sql_leb (cell r2 c) (cell r1 c))) rs.

(** The names local to [display_recent_entries_management].  A name the
    function assigns anywhere in its body, here by the nested [def], is
    local to it from the start and unbound until the assignment runs. *)
Inductive local_value :=
| local_frame (df : DataFrame)
| local_get_latest_entries.      (* the closure the nested def creates *)

Section Admin.
Context (E : Externals).

(** [df.to_sql(TABLE_NAME, conn, if_exists='replace', index=False)]: the
    table is dropped and created anew from the frame. *)
Definition to_sql_replace (df : DataFrame) : M unit :=
  let schema := (λ cd : string * dtype, (cd.1, sql_type_of cd.2)) <$> columns df in
  let stored := (λ v, match v with VTime ts => VStr (timestamp_str E ts) | _ => v end) in
  modify (set_table (Some (mkTable schema false 0
                             ((λ r : gmap string value, stored <$> r) <$> rows df)))).

Definition update_database_entries (df : DataFrame) : M bool :=
  monitor_performance "update_database_entries"
    (try_except is_Exception
       (get_db_connection (to_sql_replace df);;
        mret true)
       (λ e, logger_error ("Database update error: " +:+ exn_str e);;
             raise e)).

(** The nested function, once bound:
    [SELECT * FROM resume_data ORDER BY Observation_Date DESC LIMIT ?]. *)
Definition get_latest_entries (limit : nat) : M DataFrame :=
  try_except is_Exception
    (get_db_connection
       (df ← read_sql_query_all;
        let latest := take limit (order_by_desc "Observation_Date" (rows df)) in
        mret (mkDataFrame
                ((λ cd : string * dtype,
                    (cd.1, infer_dtype ((λ r, cell r cd.1) <$> latest))) <$> columns df)
                latest)))
    (λ e, logger_error ("Error fetching latest entries: " +:+ exn_str e);;
          mret pd_DataFrame).

(** Reading a local name, and calling what it holds. *)
Definition load_local (locals : gmap string local_value) (name : string) : M local_value :=
  match locals !! name with
  | Some v => mret v
  | None => raise (UnboundLocalError name)
  end.

Definition call_local (f : local_value) (limit : nat) : M DataFrame :=
  match f with
  | local_get_latest_entries => get_latest_entries limit
  | local_frame _ => raise (TypeError "'DataFrame' object is not callable")
  end.

Definition display_recent_entries_management (u : widgets) : M unit :=
  monitor_performance "display_recent_entries_management"
    (st_subheader "📝 Recent Entries Management";;
     st_markdown "View and edit the most recent entries in the database.";;
     let locals : gmap string local_value := ∅ in
     try_except is_Exception
       (f ← load_local locals "get_latest_entries";
        recent_data ← call_local f 20;
        let locals := <["recent_data" := local_frame recent_data]> locals in
        let locals := <["get_latest_entries" := local_get_latest_entries]> locals in
        if negb (df_empty recent_data) then
          let edited_df := data_editor u recent_data in
          if save_clicked u then
            try_except is_Exception
              (update_database_entries edited_df;;
               st_success "Changes saved successfully!";;
               st_rerun)
              (λ e, logger_error ("Error saving changes: " +:+ exn_str e);;
                    st_error ("Error saving changes: " +:+ exn_str e))
          else mret ()
        else
          st_info "No entries to display")
       (λ e, logger_error ("Error displaying recent entries: " +:+ exn_str e);;
             st_error "Error loading recent entries")).

End Admin.

(** ** Creating and clearing the table *)

(** [CREATE TABLE IF NOT EXISTS resume_data (...)] and [commit]: a table
    that exists is left as it is. *)
Definition execute_create_table : M unit :=
  w ← get_world;
  match table w with
  | Some _ => mret ()
  | None => modify (set_table (Some created_table))
  end.

Definition create_database : M unit :=
  monitor_performance "create_database"
    (try_except is_sqlite3_Error
       (get_db_connection
          (execute_create_table;;
           st_success "Database initialized successfully!"))
       (λ e, st_error ("Database creation error: " +:+ exn_str e);;
             logger_error ("Database creation error: " +:+ exn_str e))).

(** [DELETE FROM resume_data] and [commit].  The rows go, the table stays;
    the sequence of an AUTOINCREMENT key remembers the largest id the
    table ever held. *)
Definition execute_delete : M unit :=
  w ← get_world;
  match table w with
  | None => raise (SqliteError ("no such table: " +:+ TABLE_NAME))
  | Some t =>
      modify (set_table (Some (mkTable (t_schema t) (t_autoinc t)
                                       (Z.max (t_seq t) (max_id t)) [])))
  end.

Definition clear_database : M bool :=
  monitor_performance "clear_database"
    (try_except is_Exception
       (get_db_connection execute_delete;;
        mret true)
       (λ e, logger_error ("Database clear error: " +:+ exn_str e);;
             raise e)).

(** ** The entry form *)








Section Form.
Context (E : Externals).




End Form.

(** ** The dashboard's choice of analysis and the front page's filtering *)

(** The options of the radio group [display_dashboard] creates. *)
Definition analysis_choices : list string :=
  [ "Kaplan–Meier Estimator";
    "Cox Proportional Hazards Model";
    "Bayesian Spatio-Temporal Model";
    "Machine Learning (XGBoost)" ].

Section Pages.
Context (E : Externals).
(** [display_ml_analysis] trains a gradient-boosted model; what it shows
    and whether it raises is left open. *)
Context (display_ml_analysis : DataFrame → M unit).

(** The [try] statement [display_risk_analysis] ends with. *)
Definition display_risk_analysis_try (df : DataFrame) (analysis_choice : string) : M unit :=
  try_except is_Exception
    (if bool_decide (analysis_choice = "Kaplan–Meier Estimator") then
       display_kaplan_meier_analysis E df
     else if bool_decide (analysis_choice = "Cox Proportional Hazards Model") then
       display_cox_analysis E df
     else if bool_decide (analysis_choice = "Machine Learning (XGBoost)") then
       display_ml_analysis df
     else mret ())
    (λ e, logger_error ("Error in risk analysis: " +:+ exn_str e);;
          st_error "Error performing risk analysis. Please check the data format.").


End Pages.

(** ** A concrete library, store and data for running the program *)

Module Sample.

Definition digit (c : ascii) : option Z :=
  let n := nat_of_ascii c in
  if (48 <=? n)%nat && (n <=? 57)%nat then Some (Z.of_nat (n - 48)) else None.

Fixpoint number (acc : Z) (cs : list ascii) : option Z :=
  match cs with
  | [] => Some acc
  | c :: cs' => d ← digit c; number (10 * acc + d)%Z cs'
  end.

(** Days between 1970-01-01 and a date of the proleptic Gregorian
    calendar. *)
Definition days_from_civil (y m d : Z) : Z :=
  let y := (if m <=? 2 then y - 1 else y)%Z in
  let era := (y / 400)%Z in
  let yoe := (y - era * 400)%Z in
  let doy := ((153 * (if m >? 2 then m - 3 else m + 9) + 2) / 5 + d - 1)%Z in
  let doe := (yoe * 365 + yoe / 4 - yoe / 100 + doy)%Z in
  (era * 146097 + doe - 719468)%Z.

(** Timestamps written as [%Y-%m-%d %H:%M:%S], the format
    [prepare_entry_data] stores; any other text is refused. *)
Definition parse_timestamp (s : string) : option Z :=
  match chars s with
  | [y1; y2; y3; y4; "-"; m1; m2; "-"; d1; d2; " "; h1; h2; ":"; n1; n2; ":"; s1; s2]%char =>
      y ← number 0 [y1; y2; y3; y4];
      m ← number 0 [m1; m2];
      d ← number 0 [d1; d2];
      h ← number 0 [h1; h2];
      n ← number 0 [n1; n2];
      sec ← number 0 [s1; s2];
      Some ((((days_from_civil y m d * 24 + h) * 60 + n) * 60 + sec) * 1000000000)%Z
  | _ => None
  end.

Definition two_digits (z : Z) : string :=
  if (z <? 10)%Z then "0" +:+ pretty z else pretty z.

(** The inverse rendering, from nanoseconds since the epoch. *)
Definition render_timestamp (ts : Z) : string :=
  let secs := (ts / 1000000000)%Z in
  let days := (secs / 86400)%Z in
  let rem := (secs mod 86400)%Z in
  let z := (days + 719468)%Z in
  let era := (z / 146097)%Z in
  let doe := (z - era * 146097)%Z in
  let yoe := ((doe - doe / 1460 + doe / 36524 - doe / 146096) / 365)%Z in
  let doy := (doe - (365 * yoe + yoe / 4 - yoe / 100))%Z in
  let mp := ((5 * doy + 2) / 153)%Z in
  let d := (doy - (153 * mp + 2) / 5 + 1)%Z in
  let m := (if mp <? 10 then mp + 3 else mp - 9)%Z in
  let y := (yoe + era * 400 + (if m <=? 2 then 1 else 0))%Z in
  pretty y +:+ "-" +:+ two_digits m +:+ "-" +:+ two_digits d +:+ " " +:+
  two_digits (rem / 3600) +:+ ":" +:+ two_digits (rem mod 3600 / 60) +:+ ":" +:+
  two_digits (rem mod 60).

(** Text made of digits only is stored as the integer it spells. *)
Definition digits_affinity (s : string) : value :=
  match chars s with
  | [] => VStr s
  | cs => match number 0 cs with Some z => VInt z | None => VStr s end
  end.

(** The fitters refuse an empty input and a missing value. *)
Definition fit_check (vs : list value) : option exn :=
  match vs with
  | [] => Some (ValueError "Empty array/Series passed in.")
  | _ =>
      if existsb (λ v, bool_decide (v = VNone)) vs
      then Some (TypeError "NaNs were detected in the dataset. Try using pd.isnull to find the problematic values.")
      else None
  end.

(** A library to run the examples with.  It is exact on what the
    examples feed it; beyond the dot it knows no pattern operator and
    reports every such pattern as an error. *)
Definition externals : Externals :=
  mkExternals
    parse_timestamp
    (λ _, None)
    digits_affinity
    (λ z, pretty z +:+ ".0")
    render_timestamp
    render_timestamp
    (λ durations events, fit_check (durations ++ events))
    (λ data, match rows data with [] => Some (ValueError "Empty array/Series passed in.") | _ => None end).

(** The store right after [create_database], nothing cached. *)
Definition fresh : World := mkWorld true (Some created_table) None 0 [] [] [] ∅.

(** A store that cannot be opened. *)
Definition unreachable : World := mkWorld false (Some created_table) None 0 [] [] [] ∅.

(** An entry as [prepare_entry_data] builds it (some of its fields). *)
Definition entry : gmap string value :=
  list_to_map
    [ ("Age", VInt 34); ("Sex", VStr "Female"); ("Employment_Status", VStr "Full-time");
      ("Healthcare_Role", VStr "Nurse"); ("Department", VStr "Emergency");
      ("Suicidal_Distress", VInt 3); ("Time_To_Crisis", VInt 120); ("Crisis_Event", VInt 0);
      ("Observation_Date", VStr "2024-05-01 12:30:00") ].

Definition minor : gmap string value := <["Age" := VInt 17]> entry.

(** A small loaded table: two staff members. *)
Definition staff_columns : list (string * dtype) :=
  [ ("Age", int64); ("Sex", object); ("Healthcare_Role", object) ].

Definition nurse : gmap string value :=
  list_to_map [("Age", VInt 34); ("Sex", VStr "Female"); ("Healthcare_Role", VStr "Nurse")].

Definition doctor : gmap string value :=
  list_to_map [("Age", VInt 51); ("Sex", VStr "Male"); ("Healthcare_Role", VStr "Doctor")].

Definition staff : DataFrame := mkDataFrame staff_columns [nurse; doctor].

(** The same people without their age. *)
Definition staff_without_age : DataFrame :=
  mkDataFrame [("Sex", object); ("Healthcare_Role", object)]
              [delete "Age" nurse; delete "Age" doctor].

Definition adults_only : filter_vars :=
  mkFilterVars (Some (18, 100)%Z) None None None None None.

Definition women_in_their_thirties : filter_vars :=
  mkFilterVars (Some (30, 39)%Z) (Some [VStr "Female"]) None None None None.

(** The front page on the staff table: the age slider and the gender
    selection left as they come up, the roles narrowed down to doctors. *)
Definition doctors_only : filter_vars :=
  front_filter_vars staff
    (mkFrontInput (34, 51)%Z [VStr "Female"; VStr "Male"] [VStr "Doctor"]
                  [] (0, 10)%Z [VInt 0; VInt 1]).

(** Two observations, the second without its time to crisis. *)
Definition observations : DataFrame :=
  mkDataFrame
    [("Time_To_Crisis", float64); ("Crisis_Event", int64)]
    [ list_to_map [("Time_To_Crisis", VInt 30); ("Crisis_Event", VInt 1)];
      list_to_map [("Time_To_Crisis", VNone); ("Crisis_Event", VInt 0)] ].

(** The user keeps the default columns, picks the third radio position
    (where the first definition of [export_data] had JSON) and presses
    both buttons. *)
Definition clicks : widgets := mkWidgets None 2 true (λ df, df) true.

End Sample.

(** ** More stores and inputs to run the program on *)

Module Fixtures.

(** A store that holds the given rows in the table of [create_database],
    nothing cached. *)
Definition table_of (stored : list (gmap string value)) : Table :=
  mkTable resume_schema true (Z.of_nat (List.length stored)) stored.

Definition store_of (stored : list (gmap string value)) : World :=
  mkWorld true (Some (table_of stored)) None 0 [] [] [] ∅.

(** [Sample.entry] as the first row of the table. *)
Definition first_row : gmap string value := <["id" := VInt 1]> Sample.entry.

(** A row whose date is not written as a date. *)
Definition undated_row : gmap string value :=
  <["Observation_Date" := VStr "yesterday"]> first_row.



(** What the regression reads of a table filled through the form: the
    form has no field for [Burnout_Level]. *)
Definition entered_through_form : DataFrame :=
  mkDataFrame
    [ ("Age", int64); ("Work_Stress_Level", int64); ("Burnout_Level", object);
      ("Social_Isolation", int64); ("Time_To_Crisis", int64); ("Crisis_Event", int64) ]
    [ list_to_map [ ("Age", VInt 34); ("Work_Stress_Level", VInt 7);
                    ("Burnout_Level", VNone); ("Social_Isolation", VInt 4);
                    ("Time_To_Crisis", VInt 120); ("Crisis_Event", VInt 0) ] ].

(** A table of two columns with one row, whose age is not recorded. *)
Definition two_columns : Table :=
  mkTable [("Age", INTEGER); ("Observation_Date", TEXT)] false 0
          [ list_to_map [("Age", VInt 34); ("Observation_Date", VStr "2024-05-01 12:30:00")];
            list_to_map [("Age", VNone); ("Observation_Date", VStr "2024-05-02 08:00:00")] ].

End Fixtures.

(** * The vocabulary of the properties *)

(** One frame holds rows of another, in their order, under the same
    columns. *)
Definition sub_frame (out df : DataFrame) : Prop :=
  columns out = columns df ∧ rows out `sublist_of` rows df.

(** The specification's match: [term] occurs in [s], letter case aside. *)
Definition icase_substring (term s : string) : Prop :=
  ∃ pre post, lower (chars s) = pre ++ lower (chars term) ++ post.

(** A term without any operator of [re]. *)
Definition plain (term : string) : Prop :=
  Forall (λ c, is_special c = false) (chars term).

(** The specification's reading of a criterion: a bound range holds of an integer
    inside it, a bound selection holds of its members, an unbound criterion
    holds of everything. *)
Definition in_range (criterion : option (Z * Z)) (v : value) : Prop :=
  match criterion with
  | Some (lo, hi) => ∃ z, v = VInt z ∧ (lo ≤ z ≤ hi)%Z
  | None => True
  end.

Definition in_selection (criterion : option (list value)) (v : value) : Prop :=
  match criterion with
  | Some values => v ∈ values
  | None => True
  end.

(** Every criterion the front page can bind, each on its column. *)
Definition satisfies_criteria (fv : filter_vars) (r : gmap string value) : Prop :=
  in_range (age_range fv) (cell r "Age") ∧
  in_selection (selected_genders fv) (cell r "Sex") ∧
  in_selection (selected_roles fv) (cell r "Healthcare_Role") ∧
  in_selection (selected_departments fv) (cell r "Department") ∧
  in_range (risk_level fv) (cell r "Suicidal_Distress") ∧
  in_selection (crisis_filter fv) (cell r "Crisis_Event").

(** The [Age] column can be compared with the bounds of the slider: it is
    a numeric column, or an object column of integers and missing values. *)
Definition age_comparable (df : DataFrame) : Prop :=
  match column_dtype df "Age" with
  | Some int64 | Some float64 => True
  | Some object => Forall (λ r, is_int_or_null (cell r "Age") = true) (rows df)
  | _ => False
  end.

Definition cmp_int (test : Z → Z → bool) (n : Z) (v : value) : bool :=
  match v with VInt z => test z n | _ => false end.

Definition age_passes (fv : filter_vars) (r : gmap string value) : bool :=
  match age_range fv with
  | Some (lo, hi) => cmp_int Z.geb lo (cell r "Age") && cmp_int Z.leb hi (cell r "Age")
  | None => true
  end.

Definition gender_passes (fv : filter_vars) (r : gmap string value) : bool :=
  match selected_genders fv with
  | Some genders => bool_decide (cell r "Sex" ∈ genders)
  | None => true
  end.

(** The payloads of the download buttons among the elements shown. *)
Definition downloads (shown : list ui_event) : list payload :=
  omap (λ ev, match ev with
              | st_download_button_ev _ data _ _ => Some data
              | _ => None
              end) shown.


(** No entry of the cache answers a call made now. *)
Definition cache_miss (w : World) : Prop :=
  match cache w with
  | Some (stored_at, _, _) => (stored_at + ttl ≤ now w)%nat
  | None => True
  end.

(** The frame a table without rows loads as. *)
Definition empty_resume_frame : DataFrame :=
  mkDataFrame
    ((λ cd : string * coltype,
        (cd.1, if bool_decide (cd.1 = "Observation_Date") then datetime64 else object))
       <$> resume_schema)
    [].

(** A valid entry: an integer age in range, the required fields filled
    in. *)
Definition valid_entry (data : gmap string value) : Prop :=
  (∃ a, data !! "Age" = Some (VInt a) ∧ (18 ≤ a ≤ 100)%Z) ∧
  Forall (λ field, truthy (dict_get data field) = true) required_fields.







(** What the store answers to the statement of [insert_entry]: the table
    with the row added, or the sqlite error. *)
Definition insert_statement (E : Externals) (data : gmap string value) (w : World)
  : result Table :=
  if connectable w then
    match table w with
    | Some t => sql_insert E data t
    | None => Raise (SqliteError ("no such table: " +:+ TABLE_NAME))
    end
  else Raise (SqliteError "unable to open database file").

(** The primary key of the table: every row has an integer [id], and no
    two rows have the same. *)
Definition primary_key_ok (t : Table) : Prop :=
  Forall (λ r, is_Some (row_id r)) (t_rows t) ∧ NoDup (used_ids t).

(** What the text search keeps: with a term typed, the rows in which the
    compiled pattern is found in the text of a cell of some text column. *)
Definition term_hits (E : Externals) (term : string) (v : value) : bool :=
  match re_compile E term with
  | Ok matcher => matcher (py_str E v)
  | Raise _ => false
  end.

Definition text_passes (E : Externals) (df : DataFrame) (term : string)
    (r : gmap string value) : bool :=
  if truthy (VStr term)
  then existsb (λ c, term_hits E term (cell r c)) (object_columns df)
  else true.

(** The error messages among the elements shown. *)
Definition errors (shown : list ui_event) : list string :=
  omap (λ ev, match ev with st_error_ev msg => Some msg | _ => None end) shown.

(** * Properties *)

(** ** Running the monad *)

Lemma monitor_performance_ok {A} name (m : M A) w a w' :
  m w = (Ok a, w') → monitor_performance name m w = (Ok a, add_metric name w').
Proof. intros H. unfold monitor_performance, mbind, M_bind. by rewrite H. Qed.

Lemma monitor_performance_raise {A} name (m : M A) w e w' :
  m w = (Raise e, w') → monitor_performance name m w = (Raise e, w').
Proof. intros H. unfold monitor_performance, mbind, M_bind. by rewrite H. Qed.

Lemma monitor_performance_inv {A} name (m : M A) w a w' :
  monitor_performance name m w = (Ok a, w') →
  ∃ w0, m w = (Ok a, w0) ∧ w' = add_metric name w0.
Proof.
  unfold monitor_performance, mbind, M_bind.
  destruct (m w) as [[a0|e] w0]; simpl; intros H; [|discriminate].
  injection H as -> <-. eauto.
Qed.

(** ** C1: an age outside [18,100] is refused and nothing is written *)

Lemma validate_rejects_age_out_of_range data a :
  data !! "Age" = Some (VInt a) → (a < 18 ∨ 100 < a)%Z →
  validate_entry_data data = (false, "Age must be between 18 and 100").
Proof.
  intros Ha Hout.
  unfold validate_entry_data, validate_entry_data_try, dict_getitem.
  rewrite Ha. simpl.
  destruct (Z.ltb_spec a 18) as [_|Hge]; simpl; [done|].
  destruct (Z.gtb_spec a 100) as [_|Hle]; simpl; [done|lia].
Qed.

(** C1.  For every entry whose [Age] is an integer below 18 or above 100,
    [insert_entry] returns [False], shows the validation message, and
    leaves the stored table (and the log) as they were. *)
Theorem insert_entry_rejects_age_out_of_range (E : Externals) data a w :
  data !! "Age" = Some (VInt a) → (a < 18 ∨ 100 < a)%Z →
  (insert_entry E data w).1 = Ok false ∧
  ui (insert_entry E data w).2
    = ui w ++ [st_error_ev "Validation error: Age must be between 18 and 100"] ∧
  table (insert_entry E data w).2 = table w ∧
  log (insert_entry E data w).2 = log w.
Proof.
  intros Ha Hout.
  unfold insert_entry.
  rewrite (monitor_performance_ok _ _ w false
             (add_ui (st_error_ev "Validation error: Age must be between 18 and 100") w)).
  - done.
  - unfold try_except.
    by rewrite (validate_rejects_age_out_of_range data a Ha Hout).
Qed.

Lemma insert_entry_rejects_minor :
  Sample.minor !! "Age" = Some (VInt 17) ∧ (17 < 18 ∨ 100 < 17)%Z ∧
  (insert_entry Sample.externals Sample.minor Sample.fresh).1 = Ok false ∧
  ui (insert_entry Sample.externals Sample.minor Sample.fresh).2
    = ui Sample.fresh ++ [st_error_ev "Validation error: Age must be between 18 and 100"] ∧
  table (insert_entry Sample.externals Sample.minor Sample.fresh).2 = table Sample.fresh ∧
  log (insert_entry Sample.externals Sample.minor Sample.fresh).2 = log Sample.fresh.
Proof.
  split; [vm_compute; reflexivity|]. split; [lia|].
  apply (insert_entry_rejects_age_out_of_range Sample.externals Sample.minor 17 Sample.fresh).
  - vm_compute; reflexivity.
  - lia.
Defined.

(** ** C10: the recent-entries grid never gets past its first statement *)

Lemma load_local_unbound (name : string) w :
  load_local (∅ : gmap string local_value) name w = (Raise (UnboundLocalError name), w).
Proof. unfold load_local. by rewrite lookup_empty. Qed.

(** C10.  Whatever the store holds and whatever the user does with the
    grid and the save button, [display_recent_entries_management] fails at
    its first statement, the call of a local name that is bound only by the
    [def] below it: nothing is fetched or edited, the handler of the outer
    [try] logs the UnboundLocalError and shows the error message, and the
    stored table is the one the call started with, so the bulk replace of
    [update_database_entries] is never reached on this path. *)
Theorem recent_entries_management_never_updates (E : Externals) (u : widgets) (w : World) :
  (display_recent_entries_management E u w).1 = Ok () ∧
  ui (display_recent_entries_management E u w).2
    = ui w ++ [st_subheader_ev "📝 Recent Entries Management";
               st_markdown_ev "View and edit the most recent entries in the database.";
               st_error_ev "Error loading recent entries"] ∧
  log (display_recent_entries_management E u w).2
    = log w ++ ["Error displaying recent entries: " +:+
                exn_str (UnboundLocalError "get_latest_entries")] ∧
  table (display_recent_entries_management E u w).2 = table w.
Proof.
  unfold display_recent_entries_management.
  erewrite monitor_performance_ok.
  2:{ unfold mbind, M_bind, try_except; simpl.
      rewrite load_local_unbound. simpl. reflexivity. }
  simpl. by rewrite <- !app_assoc.
Qed.

(** ** Frames, masks and the result monad *)

Lemma bind_Ok_inv {A B} (r : result A) (f : A → result B) b :
  r ≫= f = Ok b → ∃ a, r = Ok a ∧ f a = Ok b.
Proof. destruct r as [a|e]; simpl; [eauto|discriminate]. Qed.

(** Splits a hypothesis [x ← r; k = Ok b] into its two steps, naming the
    intermediate value and the equation of the first step. *)
Tactic Notation "bind_inv_as" hyp(H) ident(a) ident(Ha) :=
  apply bind_Ok_inv in H as (a & Ha & H).

Lemma mask_rows_sublist {A} (l : list A) mask : mask_rows l mask `sublist_of` l.
Proof.
  revert mask. induction l as [|x l IH]; intros [|[] mask]; simpl;
    try apply sublist_nil_l.
  - apply sublist_skip, IH.
  - apply sublist_cons, IH.
Qed.

Lemma mask_rows_fmap {A} (f : A → bool) (l : list A) :
  mask_rows l (f <$> l) = List.filter f l.
Proof. induction l as [|x l IH]; csimpl; [done|]. rewrite IH. by destruct (f x). Qed.

Lemma mask_or_fmap {A} (f g : A → bool) (l : list A) :
  mask_or (f <$> l) (g <$> l) = (λ x, f x || g x) <$> l.
Proof. induction l as [|x l IH]; csimpl; [done|]. by rewrite IH. Qed.

Lemma mask_and_fmap {A} (f g : A → bool) (l : list A) :
  mask_and (f <$> l) (g <$> l) = (λ x, f x && g x) <$> l.
Proof. induction l as [|x l IH]; csimpl; [done|]. by rewrite IH. Qed.

Lemma replicate_fmap_const {A} (l : list A) (b : bool) :
  replicate (List.length l) b = (λ _, b) <$> l.
Proof. induction l as [|x l IH]; csimpl; [done|]. by rewrite IH. Qed.

Lemma mapR_Ok_fmap {A B} (f : A → result B) (g : A → B) (l : list A) :
  (∀ x, x ∈ l → f x = Ok (g x)) → mapR f l = Ok (g <$> l).
Proof.
  induction l as [|x l IH]; intros H; csimpl; [done|].
  rewrite (H x) by apply list_elem_of_here. csimpl.
  rewrite IH; [done|]. intros y Hy. apply H. by apply list_elem_of_further.
Qed.

Lemma sub_frame_refl df : sub_frame df df.
Proof. by split. Qed.

Lemma sub_frame_trans a b c : sub_frame a b → sub_frame b c → sub_frame a c.
Proof. intros [? ?] [? ?]. split; [congruence|]. by etrans. Qed.

Lemma df_getitem_mask_sub df mask : sub_frame (df_getitem_mask df mask) df.
Proof. split; [done|]. apply mask_rows_sublist. Qed.

Lemma column_dtype_Some df c :
  c ∈ column_names df → ∃ d, column_dtype df c = Some d ∧ (c, d) ∈ columns df.
Proof.
  unfold column_names, column_dtype. intros Hc.
  apply list_elem_of_fmap in Hc as ([c' d] & -> & Hin). simpl.
  destruct (list_find (λ cd : string * dtype, cd.1 = c') (columns df)) as [[i [c2 d2]]|] eqn:Hf.
  - apply list_find_Some in Hf as (Hi & Heq & _). simpl in Heq. subst c2.
    exists d2. split; [done|]. by apply list_elem_of_lookup_2 in Hi.
  - apply list_find_None in Hf. rewrite Forall_forall in Hf.
    by destruct (Hf _ Hin).
Qed.

Lemma column_dtype_None df c : c ∉ column_names df → column_dtype df c = None.
Proof.
  unfold column_names, column_dtype. intros Hc.
  destruct (list_find (λ cd : string * dtype, cd.1 = c) (columns df)) as [[i [c2 d2]]|] eqn:Hf;
    [|done].
  apply list_find_Some in Hf as (Hi & Heq & _). simpl in Heq. subst c2.
  destruct Hc. apply list_elem_of_fmap. exists (c, d2). split; [done|].
  by apply list_elem_of_lookup_2 in Hi.
Qed.

Lemma df_getitem_absent df c : c ∉ column_names df → df_getitem df c = Raise (KeyError c).
Proof. intros H. unfold df_getitem. by rewrite column_dtype_None. Qed.

Section FilterFacts.
Context (E : Externals).

Lemma text_search_sub df term out : text_search E df term = Ok out → sub_frame out df.
Proof.
  unfold text_search. intros H. bind_inv_as H mask Hmask. injection H as <-.
  apply df_getitem_mask_sub.
Qed.

Lemma apply_filters_body_sub df term fv out :
  apply_filters_body E df term fv = Ok out → sub_frame out df.
Proof.
  unfold apply_filters_body, df_copy. intros H.
  bind_inv_as H a Ha. bind_inv_as H b Hb. bind_inv_as H c Hc. injection H as <-.
  assert (sub_frame a df) as H1.
  { destruct (truthy (VStr term)); [by eapply text_search_sub|].
    injection Ha as <-. apply sub_frame_refl. }
  assert (sub_frame b a) as H2.
  { destruct (age_range fv) as [[lo hi]|].
    - bind_inv_as Hb s1 Hs1. bind_inv_as Hb m1 Hm1.
      bind_inv_as Hb s2 Hs2. bind_inv_as Hb m2 Hm2.
      injection Hb as <-. apply df_getitem_mask_sub.
    - injection Hb as <-. apply sub_frame_refl. }
  assert (sub_frame c b) as H3.
  { destruct (selected_genders fv) as [genders|].
    - bind_inv_as Hc s Hs. injection Hc as <-. apply df_getitem_mask_sub.
    - injection Hc as <-. apply sub_frame_refl. }
  eauto using sub_frame_trans.
Qed.

Lemma apply_filters_body_inactive df :
  apply_filters_body E df EmptyString no_filter_vars = Ok df.
Proof. reflexivity. Qed.

End FilterFacts.

(** ** C3: filtering selects rows of its input *)

(** C3.  Whenever [apply_filters] returns a frame, the frame has the
    columns of the input and its rows are rows of the input, in their
    order; with an empty search term and no criterion bound it returns the
    input itself. *)
Theorem apply_filters_subset_and_identity (E : Externals) df term fv w :
  (∀ out w', apply_filters E df term fv w = (Ok out, w') →
             columns out = columns df ∧ rows out `sublist_of` rows df) ∧
  apply_filters E df EmptyString no_filter_vars w = (Ok df, add_metric "apply_filters" w).
Proof.
  split.
  - intros out w' H. unfold apply_filters in H.
    apply monitor_performance_inv in H as (w0 & H & _).
    unfold lift in H. injection H as H _.
    by apply (apply_filters_body_sub E df term fv).
  - unfold apply_filters. apply monitor_performance_ok.
    unfold lift. by rewrite apply_filters_body_inactive.
Qed.

Lemma apply_filters_subset_on_staff :
  ∃ out,
    apply_filters Sample.externals Sample.staff EmptyString Sample.women_in_their_thirties
                  Sample.fresh
      = (Ok out, add_metric "apply_filters" Sample.fresh) ∧
    rows out = [Sample.nurse] ∧
    columns out = columns Sample.staff ∧ rows out `sublist_of` rows Sample.staff.
Proof.
  eexists. split; [vm_compute; reflexivity|]. split; [reflexivity|].
  apply (proj1 (apply_filters_subset_and_identity Sample.externals Sample.staff EmptyString
                  Sample.women_in_their_thirties Sample.fresh)
               _ (add_metric "apply_filters" Sample.fresh)).
  vm_compute; reflexivity.
Defined.

(** ** C7: the survival curve is fitted on every row *)

Section AnalysisFacts.
Context (E : Externals).

(** With both columns present the estimator is handed the two columns
    as they are, every row of them, and no warning is shown; the plot
    follows unless the estimator raises. *)
Lemma kaplan_meier_fits_all_rows df w :
  "Time_To_Crisis" ∈ column_names df → "Crisis_Event" ∈ column_names df →
  fits (display_kaplan_meier_analysis E df w).2
    = fits w ++ [KaplanMeierFitter_fit ((λ r, cell r "Time_To_Crisis") <$> rows df)
                                       ((λ r, cell r "Crisis_Event") <$> rows df)] ∧
  (ui (display_kaplan_meier_analysis E df w).2 = ui w ∨
   ui (display_kaplan_meier_analysis E df w).2
     = ui w ++ [st_pyplot_ev "Kaplan-Meier Survival Curve"]).
Proof.
  intros Ht Hc.
  destruct (column_dtype_Some df _ Ht) as (dt & Hdt & _).
  destruct (column_dtype_Some df _ Hc) as (dc & Hdc & _).
  unfold display_kaplan_meier_analysis, has_column.
  rewrite !bool_decide_eq_true_2 by done. simpl.
  unfold monitor_performance, mbind, M_bind, lift, df_getitem, kmf_fit.
  rewrite Hdt, Hdc. simpl.
  destruct (kmf_fit_raises E _ _); simpl; auto.
Qed.

(** The hazards regression next to it does drop the incomplete rows and
    does warn when none is left: the fitter is called at most once, on
    the complete rows of the selected columns, of which there is at least
    one. *)
Lemma cox_fits_complete_rows_only df w :
  fits (display_cox_analysis E df w).2 = fits w ∨
  ∃ selected,
    df_getitem_cols df (["Time_To_Crisis"; "Crisis_Event"] ++ covariates) = Ok selected ∧
    rows (dropna selected) ≠ [] ∧
    fits (display_cox_analysis E df w).2 = fits w ++ [CoxPHFitter_fit (dropna selected)].
Proof.
  unfold display_cox_analysis, monitor_performance, try_except, mbind, M_bind, lift.
  remember dropna as drop_incomplete eqn:Hdrop.
  destruct (forallb (has_column df) _); simpl; [|by left].
  destruct (df_getitem_cols df _) as [selected|e]; simpl.
  - destruct (rows (drop_incomplete selected)) as [|r rs] eqn:Hrows; simpl; [by left|].
    right. exists selected. split; [done|]. split; [by rewrite Hrows|].
    unfold cph_fit, mbind, M_bind. simpl.
    destruct (cph_fit_raises E _); simpl; [destruct (is_Exception e)|]; done.
  - destruct (is_Exception e); simpl; by left.
Qed.

End AnalysisFacts.

(** C7 (the code at its failing input).  Given two observations of which
    the second has no [Time_To_Crisis], [display_kaplan_meier_analysis]
    hands both rows to the estimator, the missing value included, and shows
    no insufficient-data message. *)
Theorem kaplan_meier_fits_incomplete_row (E : Externals) (w : World) :
  fits (display_kaplan_meier_analysis E Sample.observations w).2
    = fits w ++ [KaplanMeierFitter_fit [VInt 30; VNone] [VInt 1; VInt 0]] ∧
  (ui (display_kaplan_meier_analysis E Sample.observations w).2 = ui w ∨
   ui (display_kaplan_meier_analysis E Sample.observations w).2
     = ui w ++ [st_pyplot_ev "Kaplan-Meier Survival Curve"]).
Proof.
  destruct (kaplan_meier_fits_all_rows E Sample.observations w) as [Hfits Hui];
    [apply (bool_decide_unpack _); vm_compute; exact I ..|].
  split; [exact Hfits|exact Hui].
Qed.

(** ** C4: the search term is a regular expression *)

Lemma tokenize_plain term :
  plain term → tokenize term = Some (Lit <$> lower (chars term)).
Proof.
  unfold plain, tokenize, lower. generalize (chars term) as cs.
  induction cs as [|c cs IH]; intros H; [done|].
  apply Forall_cons in H as [Hc Hcs]. specialize (IH Hcs). simpl in *.
  assert (tokenize_char c = Some (Lit (ascii_lower c))) as ->.
  { unfold tokenize_char. rewrite Hc.
    rewrite bool_decide_eq_false_2; [done|].
    intros ->. by vm_compute in Hc. }
  simpl. by rewrite IH.
Qed.

Lemma match_here_prefix pat s :
  match_here (Lit <$> lower pat) s = true ↔ ∃ post, lower s = lower pat ++ post.
Proof.
  revert s. induction pat as [|a pat IH]; intros s; csimpl.
  - split; [eauto|done].
  - destruct s as [|c s]; csimpl.
    + split; [done|]. by intros [post ?].
    + rewrite andb_true_iff, bool_decide_eq_true, IH. split.
      * intros [-> [post ->]]. eauto.
      * intros [post H]. injection H as -> ->. eauto.
Qed.

Lemma search_infix pat s :
  search (Lit <$> lower pat) s = true ↔
  ∃ pre post, lower s = pre ++ lower pat ++ post.
Proof.
  induction s as [|c s IH]; simpl.
  - rewrite orb_false_r, match_here_prefix. split.
    + intros [post H]. by exists [], post.
    + intros (pre & post & H). symmetry in H.
      apply app_eq_nil in H as [-> H]. exists post. by rewrite H.
  - rewrite orb_true_iff, match_here_prefix, IH. split.
    + intros [[post H]|(pre & post & H)].
      * by exists [], post.
      * exists (ascii_lower c :: pre), post. csimpl. by rewrite H.
    + intros (pre & post & H). destruct pre as [|p pre].
      * left. by exists post.
      * right. csimpl in H. injection H as _ H. eauto.
  Qed.

Section SearchFacts.
Context (E : Externals).

Lemma re_compile_plain term :
  plain term →
  re_compile E term = Ok (λ s, search (Lit <$> lower (chars term)) (chars s)).
Proof. intros H. unfold re_compile. by rewrite (tokenize_plain term H). Qed.

(** One turn of the loop over the text columns, for a term that
    compiles, and the loop. *)
Lemma text_search_step df term matcher c (g : gmap string value → bool) :
  re_compile E term = Ok matcher →
  c ∈ column_names df →
  (s ← df_getitem df c;
   hits ← astype_str_contains E s term;
   Ok (mask_or (g <$> rows df) hits))
  = Ok ((λ r, g r || matcher (py_str E (cell r c))) <$> rows df).
Proof.
  intros Hre Hc.
  destruct (column_dtype_Some df c Hc) as (d & Hd & _).
  unfold df_getitem. rewrite Hd. simpl.
  unfold astype_str_contains. rewrite Hre. simpl.
  by rewrite <- list_fmap_compose, mask_or_fmap.
Qed.

Lemma text_search_fold df term matcher cols (g : gmap string value → bool) :
  re_compile E term = Ok matcher →
  (∀ c, c ∈ cols → c ∈ column_names df) →
  foldR (λ mask col,
           s ← df_getitem df col;
           hits ← astype_str_contains E s term;
           Ok (mask_or mask hits))
        (g <$> rows df) cols
  = Ok ((λ r, g r || existsb (λ c, matcher (py_str E (cell r c))) cols) <$> rows df).
Proof.
  intros Hre. revert g. induction cols as [|c cols IH]; intros g Hcols.
  - simpl. f_equal. apply list_fmap_ext. intros _ r _. by rewrite orb_false_r.
  - cbn [foldR].
    rewrite (text_search_step df term matcher c g Hre)
      by apply Hcols, list_elem_of_here.
    cbn [mbind result_bind].
    rewrite IH by (intros c' Hc'; by apply Hcols, list_elem_of_further).
    f_equal. apply list_fmap_ext. intros _ r _. simpl. by rewrite orb_assoc.
Qed.

Lemma object_columns_are_columns df c : c ∈ object_columns df → c ∈ column_names df.
Proof.
  unfold object_columns, column_names. intros H.
  apply list_elem_of_fmap in H as (cd & -> & H).
  apply list_elem_of_filter in H as [_ H].
  apply list_elem_of_fmap. eauto.
Qed.

Lemma text_search_compiled df term matcher :
  re_compile E term = Ok matcher →
  text_search E df term
  = Ok (mkDataFrame (columns df)
          (List.filter (λ r, existsb (λ c, matcher (py_str E (cell r c))) (object_columns df))
                       (rows df))).
Proof.
  intros Hre. unfold text_search.
  rewrite (replicate_fmap_const (rows df) false).
  rewrite (text_search_fold df term matcher _ (λ _, false) Hre)
    by apply object_columns_are_columns.
  simpl. unfold df_getitem_mask. by rewrite mask_rows_fmap.
Qed.

(** For a term without operators the specification holds: the rows kept are
    those in which the term occurs, letter case aside, in the text of a
    cell of some text column. *)
Lemma text_search_plain_term df term :
  plain term → term ≠ EmptyString →
  ∃ out, apply_filters_body E df term no_filter_vars = Ok out ∧
    ∀ r, r ∈ rows out ↔
         r ∈ rows df ∧
         ∃ c, c ∈ object_columns df ∧ icase_substring term (py_str E (cell r c)).
Proof.
  intros Hplain Hne. eexists. split.
  - unfold apply_filters_body, df_copy.
    assert (truthy (VStr term) = true) as -> by by destruct term.
    rewrite (text_search_compiled _ _ _ (re_compile_plain term Hplain)). reflexivity.
  - intros r. simpl. rewrite list_elem_of_In, filter_In, <- list_elem_of_In.
    apply and_iff_compat_l. rewrite existsb_exists. split.
    + intros (c & Hc & Hs). exists c. rewrite list_elem_of_In. split; [done|].
      by apply search_infix.
    + intros (c & Hc & Hs). exists c. rewrite <- list_elem_of_In. split; [done|].
      by apply search_infix.
Qed.

End SearchFacts.

(** C4 (the code at its failing input).  Searching the two staff members
    for a single dot keeps both rows, although no text cell of either
    contains a dot: the term is compiled as a regular expression, in which
    the dot stands for any character. *)
Theorem text_search_dot_keeps_rows_without_a_dot (E : Externals) :
  apply_filters_body E Sample.staff "." no_filter_vars = Ok Sample.staff ∧
  ∀ r c, r ∈ rows Sample.staff → c ∈ object_columns Sample.staff →
         ¬ icase_substring "." (py_str E (cell r c)).
Proof.
  split; [reflexivity|].
  intros r c Hr Hc (pre & post & Heq).
  assert ("."%char ∈ lower (chars (py_str E (cell r c)))) as Hin.
  { rewrite Heq, !elem_of_app. right. left. apply list_elem_of_here. }
  revert Hin.
  assert (r = Sample.nurse ∨ r = Sample.doctor) as Hrs.
  { simpl in Hr. rewrite !elem_of_cons, elem_of_nil in Hr. tauto. }
  assert (c = "Sex" ∨ c = "Healthcare_Role") as Hcs.
  { assert (object_columns Sample.staff = ["Sex"; "Healthcare_Role"]) as Hcols
      by (vm_compute; reflexivity).
    rewrite Hcols, !elem_of_cons, elem_of_nil in Hc. tauto. }
  destruct Hrs as [-> | ->], Hcs as [-> | ->];
    apply (bool_decide_unpack _); vm_compute; exact I.
Qed.

(** ** C5 and C6: which criteria are applied, and when the call returns *)

Lemma series_cmp_Ok_inv op test s n mask :
  series_cmp op test s n = Ok mask → mask = cmp_int test n <$> s_values s.
Proof.
  unfold series_cmp. destruct s as [d vs]. simpl.
  assert (∀ d', d' ≠ datetime64 → mapR (cmp_cell op test d' n) vs = Ok mask →
                mask = cmp_int test n <$> vs) as Hgen.
  { intros d' Hd'. revert mask. induction vs as [|v vs IH]; intros mask H; simpl in H.
    - by injection H as <-.
    - bind_inv_as H b Hb. bind_inv_as H bs Hbs. injection H as <-. csimpl.
      f_equal; [|by apply IH].
      destruct d', v; simpl in Hb; try discriminate; try done; by injection Hb as <-. }
  destruct d; try discriminate; by apply Hgen.
Qed.

Lemma series_cmp_numeric op test d vs n :
  d = int64 ∨ d = float64 ∨ (d = object ∧ Forall (λ v, is_int_or_null v = true) vs) →
  series_cmp op test (mkSeries d vs) n = Ok (cmp_int test n <$> vs).
Proof.
  intros Hd. unfold series_cmp. simpl.
  assert (mapR (cmp_cell op test d n) vs = Ok (cmp_int test n <$> vs)) as Hmap.
  { apply mapR_Ok_fmap. intros v Hv.
    destruct Hd as [->|[->|[-> Hall]]]; [done|done|].
    rewrite Forall_forall in Hall. specialize (Hall v Hv). by destruct v. }
  by destruct Hd as [->|[->|[-> _]]].
Qed.

Lemma age_passes_in_range fv r : age_passes fv r = true ↔ in_range (age_range fv) (cell r "Age").
Proof.
  unfold age_passes, in_range. destruct (age_range fv) as [[lo hi]|]; [|done].
  destruct (cell r "Age") as [z| | |]; simpl.
  - rewrite andb_true_iff, Z.geb_le, Z.leb_le. split.
    + intros [? ?]. exists z. split; [done|lia].
    + intros (z' & [= <-] & ?). lia.
  - split; [done|]. by intros (? & ? & _).
  - split; [done|]. by intros (? & ? & _).
  - split; [done|]. by intros (? & ? & _).
Qed.

Lemma gender_passes_in_selection fv r :
  gender_passes fv r = true ↔ in_selection (selected_genders fv) (cell r "Sex").
Proof.
  unfold gender_passes, in_selection. destruct (selected_genders fv); [|done].
  apply bool_decide_eq_true.
Qed.

Section CriteriaFacts.
Context (E : Externals).

(** The two stages after the text search, on a frame whose [Age] and
    [Sex] columns can be read. *)
Lemma age_stage df lo hi :
  age_comparable df →
  (a ← df_getitem df "Age";
   m1 ← series_ge a lo;
   a' ← df_getitem df "Age";
   m2 ← series_le a' hi;
   Ok (df_getitem_mask df (mask_and m1 m2)))
  = Ok (mkDataFrame (columns df)
          (List.filter (λ r, cmp_int Z.geb lo (cell r "Age") && cmp_int Z.leb hi (cell r "Age"))
                       (rows df))).
Proof.
  unfold age_comparable, df_getitem, series_ge, series_le. intros Hage.
  destruct (column_dtype df "Age") as [d|]; [|done]. simpl.
  assert (d = int64 ∨ d = float64 ∨
          (d = object ∧
           Forall (λ v, is_int_or_null v = true) ((λ r, cell r "Age") <$> rows df))) as Hd.
  { destruct d; auto; [|done]. right; right. split; [done|]. by apply Forall_fmap. }
  rewrite !(series_cmp_numeric _ _ d _ _ Hd). simpl.
  unfold df_getitem_mask. simpl.
  by rewrite <- !list_fmap_compose, mask_and_fmap, mask_rows_fmap.
Qed.

Lemma gender_stage df genders :
  "Sex" ∈ column_names df →
  (s ← df_getitem df "Sex"; Ok (df_getitem_mask df (isin s genders)))
  = Ok (mkDataFrame (columns df)
          (List.filter (λ r, bool_decide (cell r "Sex" ∈ genders)) (rows df))).
Proof.
  intros Hsex. destruct (column_dtype_Some df _ Hsex) as (d & Hd & _).
  unfold df_getitem. rewrite Hd. simpl.
  unfold df_getitem_mask, isin. simpl.
  by rewrite <- list_fmap_compose, mask_rows_fmap.
Qed.

(** What the engine does apply: with an empty search term, a row is
    kept exactly when its [Age] lies in the bound range and its [Sex] is
    among the bound selection. *)
Lemma apply_filters_body_age_gender df fv out :
  apply_filters_body E df EmptyString fv = Ok out →
  ∀ r, r ∈ rows out ↔
       r ∈ rows df ∧ in_range (age_range fv) (cell r "Age") ∧
       in_selection (selected_genders fv) (cell r "Sex").
Proof.
  unfold apply_filters_body, df_copy. simpl. intros H r.
  bind_inv_as H a Ha. bind_inv_as H a0 Ha0. injection H as <-.
  rewrite <- age_passes_in_range, <- gender_passes_in_selection.
  unfold age_passes, gender_passes.
  assert (r ∈ rows a ↔ r ∈ rows df ∧
          match age_range fv with
          | Some (lo, hi) =>
              cmp_int Z.geb lo (cell r "Age") && cmp_int Z.leb hi (cell r "Age")
          | None => true
          end = true) as Hage.
  { destruct (age_range fv) as [[lo hi]|].
    - bind_inv_as Ha s1 Hs1. bind_inv_as Ha m1 Hm1.
      bind_inv_as Ha s2 Hs2. bind_inv_as Ha m2 Hm2. injection Ha as <-.
      apply series_cmp_Ok_inv in Hm1, Hm2. subst.
      unfold df_getitem in Hs1, Hs2.
      destruct (column_dtype df "Age"); [|discriminate].
      injection Hs1 as <-. injection Hs2 as <-. simpl.
      rewrite <- !list_fmap_compose, mask_and_fmap, mask_rows_fmap.
      rewrite list_elem_of_In, filter_In, <- list_elem_of_In. done.
    - injection Ha as <-. tauto. }
  destruct (selected_genders fv) as [genders|].
  - bind_inv_as Ha0 s Hs. injection Ha0 as <-.
    unfold df_getitem in Hs. destruct (column_dtype a "Sex"); [|discriminate].
    injection Hs as <-. unfold isin. simpl.
    rewrite <- list_fmap_compose, mask_rows_fmap.
    rewrite list_elem_of_In, filter_In, <- list_elem_of_In, Hage. tauto.
  - injection Ha0 as <-. rewrite Hage. tauto.
Qed.

Lemma age_comparable_sub out df : sub_frame out df → age_comparable df → age_comparable out.
Proof.
  intros [Hcols Hrows]. unfold age_comparable, column_dtype. rewrite Hcols.
  destruct (_ <$> list_find _ (columns df)) as [[]|]; try done.
  rewrite !Forall_forall. intros Hall r Hr. apply Hall.
  by apply (sublist_subseteq _ _ Hrows).
Qed.

Lemma apply_filters_body_returns df term fv :
  (term = EmptyString ∨ is_Ok (re_compile E term) = true) →
  (is_Some (age_range fv) → age_comparable df) →
  (is_Some (selected_genders fv) → "Sex" ∈ column_names df) →
  ∃ out, apply_filters_body E df term fv = Ok out.
Proof.
  intros Hterm Hage Hsex. unfold apply_filters_body, df_copy.
  assert (∃ a, (if truthy (VStr term) then text_search E df term else Ok df) = Ok a ∧
               sub_frame a df) as (a & -> & Ha).
  { destruct Hterm as [->|Hre].
    - exists df. split; [done|apply sub_frame_refl].
    - destruct (truthy (VStr term)); [|exists df; split; [done|apply sub_frame_refl]].
      destruct (re_compile E term) as [matcher|] eqn:Hc; [|done].
      rewrite (text_search_compiled E df term matcher Hc).
      eexists. split; [done|].
      apply (text_search_sub E df term). by rewrite (text_search_compiled E df term matcher Hc). }
  cbn [mbind result_bind].
  assert (∃ b, match age_range fv with
               | Some (lo, hi) =>
                   a0 ← df_getitem a "Age";
                   m1 ← series_ge a0 lo;
                   a' ← df_getitem a "Age";
                   m2 ← series_le a' hi;
                   Ok (df_getitem_mask a (mask_and m1 m2))
               | None => Ok a
               end = Ok b ∧ columns b = columns df) as (b & -> & Hb).
  { destruct (age_range fv) as [[lo hi]|].
    - rewrite age_stage by (eapply age_comparable_sub; eauto).
      eexists. split; [done|]. apply Ha.
    - exists a. split; [done|]. apply Ha. }
  cbn [mbind result_bind].
  destruct (selected_genders fv) as [genders|]; [|by eexists].
  rewrite gender_stage.
  - by eexists.
  - unfold column_names. rewrite Hb. by apply Hsex.
Qed.

(** The criteria the front page binds always find their column. *)
Lemma front_filter_vars_columns df u :
  (is_Some (age_range (front_filter_vars df u)) → "Age" ∈ column_names df) ∧
  (is_Some (selected_genders (front_filter_vars df u)) → "Sex" ∈ column_names df).
Proof.
  unfold front_filter_vars, bound_if, has_column. simpl. split.
  - destruct (bool_decide_reflect ("Age" ∈ column_names df)); [done|]. by intros [? ?].
  - destruct (bool_decide_reflect ("Sex" ∈ column_names df)); [done|]. by intros [? ?].
Qed.

End CriteriaFacts.

(** C5 (the code at its failing input).  With the selection of roles bound
    to doctors only, [apply_filters] returns both staff members: the nurse
    is in the output although she fails an active criterion.  Only the age
    range and the gender selection are read from [filter_vars]. *)
Theorem role_selection_is_not_applied (E : Externals) :
  apply_filters_body E Sample.staff EmptyString Sample.doctors_only = Ok Sample.staff ∧
  Sample.nurse ∈ rows Sample.staff ∧
  ¬ satisfies_criteria Sample.doctors_only Sample.nurse.
Proof.
  split; [reflexivity|]. split; [apply list_elem_of_here|].
  intros (_ & _ & Hrole & _). simpl in Hrole.
  apply list_elem_of_singleton in Hrole. by vm_compute in Hrole.
Qed.

(** An active age range on a frame without an [Age] column is not
    skipped: the lookup of the column raises. *)
Lemma apply_filters_absent_age (E : Externals) df lo hi fv w :
  "Age" ∉ column_names df → age_range fv = Some (lo, hi) →
  apply_filters E df EmptyString fv w = (Raise (KeyError "Age"), w).
Proof.
  intros Habsent Hrange. unfold apply_filters. apply monitor_performance_raise.
  unfold lift, apply_filters_body, df_copy. simpl.
  by rewrite Hrange, (df_getitem_absent df "Age" Habsent).
Qed.

(** C6 as written fails.  On the staff table without its [Age]
    column, an active age range makes [apply_filters] raise KeyError. *)
Lemma apply_filters_raises_on_absent_column :
  apply_filters Sample.externals Sample.staff_without_age EmptyString Sample.adults_only
                Sample.fresh
  = (Raise (KeyError "Age"), Sample.fresh).
Proof.
  apply (apply_filters_absent_age Sample.externals Sample.staff_without_age 18 100);
    [|reflexivity].
  apply (bool_decide_eq_false_1 _). vm_compute. reflexivity.
Qed.

(** C6, amended.  [apply_filters] returns a frame, a selection of rows of
    its input, whenever the search term is empty or free of pattern
    operators, the [Age] column is there and comparable with integers if an
    age range is bound, and the [Sex] column is there if a gender selection
    is bound.  The other criteria are never read, so they cannot make it
    fail. *)
Theorem apply_filters_returns_when_columns_present (E : Externals) df term fv w :
  plain term →
  (is_Some (age_range fv) → age_comparable df) →
  (is_Some (selected_genders fv) → "Sex" ∈ column_names df) →
  ∃ out, apply_filters E df term fv w = (Ok out, add_metric "apply_filters" w) ∧
         columns out = columns df ∧ rows out `sublist_of` rows df.
Proof.
  intros Hterm Hage Hsex.
  destruct (apply_filters_body_returns E df term fv) as [out Hout]; [|done|done|].
  { right. by rewrite (re_compile_plain E term Hterm). }
  exists out. split.
  - unfold apply_filters. apply monitor_performance_ok. unfold lift. by rewrite Hout.
  - by apply (apply_filters_body_sub E df term fv).
Qed.

Lemma apply_filters_returns_on_staff :
  plain "nurse" ∧ age_comparable Sample.staff ∧ "Sex" ∈ column_names Sample.staff ∧
  ∃ out, apply_filters Sample.externals Sample.staff "nurse" Sample.women_in_their_thirties
                       Sample.fresh
         = (Ok out, add_metric "apply_filters" Sample.fresh) ∧
         columns out = columns Sample.staff ∧ rows out `sublist_of` rows Sample.staff.
Proof.
  assert (plain "nurse") as Hplain
    by (apply (bool_decide_unpack _); vm_compute; exact I).
  assert (age_comparable Sample.staff) as Hage by (vm_compute; exact I).
  assert ("Sex" ∈ column_names Sample.staff) as Hsex
    by (apply (bool_decide_unpack _); vm_compute; exact I).
  split; [exact Hplain|]. split; [exact Hage|]. split; [exact Hsex|].
  apply (apply_filters_returns_when_columns_present Sample.externals Sample.staff "nurse"
           Sample.women_in_their_thirties Sample.fresh).
  - exact Hplain.
  - intros _. exact Hage.
  - intros _. exact Hsex.
Defined.

(** Through the front page the columns are always there: a criterion is
    bound only next to its column. *)
Lemma apply_filters_from_front_page (E : Externals) df term u w :
  plain term →
  ("Age" ∈ column_names df → age_comparable df) →
  ∃ out, apply_filters E df term (front_filter_vars df u) w
         = (Ok out, add_metric "apply_filters" w).
Proof.
  intros Hterm Hage.
  destruct (front_filter_vars_columns df u) as [Hfa Hfs].
  destruct (apply_filters_body_returns E df term (front_filter_vars df u)) as [out Hout];
    [|auto|auto|].
  { right. by rewrite (re_compile_plain E term Hterm). }
  exists out. unfold apply_filters. apply monitor_performance_ok. unfold lift. by rewrite Hout.
Qed.

(** ** C8: what is exported *)

Lemma downloads_app l1 l2 : downloads (l1 ++ l2) = downloads l1 ++ downloads l2.
Proof. apply omap_app. Qed.

Lemma globals_export_data : module_globals !! "export_data" = Some export_data_1296.
Proof. vm_compute. reflexivity. Qed.

Lemma globals_display_filtered_results :
  module_globals !! "display_filtered_results" = Some display_filtered_results_1253.
Proof. vm_compute. reflexivity. Qed.

Lemma st_multiselect_options options dflt picked c :
  (∀ c, c ∈ dflt → c ∈ options) →
  c ∈ st_multiselect options dflt picked → c ∈ options.
Proof.
  intros Hd. unfold st_multiselect. destruct picked as [l|]; [|apply Hd].
  intros H. by apply list_elem_of_filter in H as [? _].
Qed.

Lemma select_columns_widget_columns u df c :
  c ∈ select_columns_widget u df → c ∈ column_names df.
Proof.
  unfold select_columns_widget. apply st_multiselect_options.
  intros c' H. by apply list_elem_of_filter in H as [? _].
Qed.

Lemma df_getitem_cols_present df cols :
  (∀ c, c ∈ cols → c ∈ column_names df) →
  ∃ view, df_getitem_cols df cols = Ok view ∧
          List.length (rows view) = List.length (rows df) ∧
          column_names view = cols.
Proof.
  intros Hcols. unfold df_getitem_cols.
  assert (∃ cs, mapR (λ c, match column_dtype df c with
                           | Some d => Ok (c, d)
                           | None => Raise (KeyError c)
                           end) cols = Ok cs ∧ cs.*1 = cols) as (cs & -> & Hcs).
  { induction cols as [|c cols IH]; simpl; [by exists []|].
    destruct (column_dtype_Some df c) as (d & -> & _); [apply Hcols, list_elem_of_here|].
    destruct IH as (cs & -> & Hcs); [intros; by apply Hcols, list_elem_of_further|].
    exists ((c, d) :: cs). split; [done|]. csimpl. by rewrite Hcs. }
  eexists. split; [done|]. simpl. by rewrite length_fmap.
Qed.

Section ExportFacts.
Context (E : Externals).

Lemma set_column_rows_length df c d vs :
  List.length vs = List.length (rows df) →
  List.length (rows (set_column df c d vs)) = List.length (rows df).
Proof. intros H. unfold set_column. simpl. rewrite length_zip_with. lia. Qed.

Lemma stringify_column_rows_length df cd :
  List.length (rows (stringify_column E df cd)) = List.length (rows df).
Proof.
  unfold stringify_column. destruct (bool_decide _);
    apply set_column_rows_length; by rewrite !length_fmap.
Qed.

Lemma stringify_rows_length df :
  List.length (rows (stringify E df)) = List.length (rows df).
Proof.
  unfold stringify. generalize (columns df) as cds. intros cds. revert df.
  induction cds as [|cd cds IH]; intros df; simpl; [done|].
  by rewrite IH, stringify_column_rows_length.
Qed.


End ExportFacts.
(** Whatever is picked and pressed, no JSON is offered. *)
Ltac no_json :=
  rewrite ?downloads_app; simpl; rewrite ?app_nil_r;
  rewrite ?elem_of_app, ?list_elem_of_singleton;
  try done; try (intros [?|?]; done).

Lemma export_data_never_json u df sel w d :
  to_json d ∈ downloads (ui (export_data u df sel w).2) → to_json d ∈ downloads (ui w).
Proof.
  unfold export_data. rewrite globals_export_data.
  unfold export_data_2, monitor_performance, try_except, mbind, M_bind.
  destruct (export_clicked u); simpl; [|no_json].
  destruct (bool_decide _); simpl; no_json.
Qed.

Lemma display_filtered_results_never_json (E : Externals) u filtered_df df w d :
  to_json d ∈ downloads (ui (display_filtered_results E u filtered_df df w).2) →
  to_json d ∈ downloads (ui w).
Proof.
  unfold display_filtered_results. rewrite globals_display_filtered_results.
  unfold display_filtered_results_2, monitor_performance, try_except, mbind, M_bind, lift.
  simpl.
  destruct (select_columns_widget u filtered_df) as [|c sel]; simpl; [no_json|].
  destruct (df_getitem_cols filtered_df (c :: sel)) as [view|e]; simpl.
  - destruct (0 <? _)%nat; simpl; [|no_json].
    match goal with
    | |- context [export_data u ?d0 ?s ?w1] =>
        pose proof (export_data_never_json u d0 s w1 d) as Hexp;
        destruct (export_data u d0 s w1) as [[[]|e] w2]
    end; simpl in *.
    + intros H. apply Hexp in H. revert H. no_json.
    + destruct (is_Exception e); simpl.
      * rewrite !downloads_app. simpl. rewrite app_nil_r.
        intros H. apply Hexp in H. revert H. no_json.
      * intros H. apply Hexp in H. revert H. no_json.
  - destruct (is_Exception e); simpl; no_json.
Qed.




(** ** The loader: what its [try] suite raises *)

(** Reads the exception off an equation between two outcomes. *)
Ltac outcome_inv :=
  let H := fresh in intros H; inversion H; subst; clear H.

Lemma mapR_Raise_inv {A B} (f : A → result B) l e :
  mapR f l = Raise e → ∃ x, x ∈ l ∧ f x = Raise e.
Proof.
  induction l as [|x l IH]; simpl; [done|].
  destruct (f x) as [y|e'] eqn:Hx; simpl.
  - destruct (mapR f l) as [ys|e'']; simpl; [done|].
    intros [= ->]. destruct IH as (x' & Hin & Hx'); [done|].
    exists x'. split; [by apply list_elem_of_further|done].
  - intros [= ->]. exists x. split; [apply list_elem_of_here|done].
Qed.

Lemma foldR_Raise_inv {A B} (f : B → A → result B) b l e :
  foldR f b l = Raise e → ∃ b' x, f b' x = Raise e.
Proof.
  revert b. induction l as [|x l IH]; intros b; simpl; [done|].
  destruct (f b x) as [b'|e'] eqn:Hx; simpl; [apply IH|].
  intros [= ->]. eauto.
Qed.

Lemma df_getitem_Raise_inv df c e : df_getitem df c = Raise e → e = KeyError c.
Proof. unfold df_getitem. destruct (column_dtype df c); [done|]. by intros [= <-]. Qed.

Section LoaderFacts.
Context (E : Externals).

Lemma convert_timestamps_raises df e :
  convert_timestamps E df = Raise e → is_Exception e = true.
Proof.
  unfold convert_timestamps. destruct (has_column df _); [|done].
  destruct (df_getitem df _) as [s|e'] eqn:Hs; simpl.
  - destruct (mapR _ _) as [vs|e'] eqn:Hvs; simpl; [done|]. intros [= ->].
    apply mapR_Raise_inv in Hvs as (v & _ & Hv).
    destruct v as [z|str| |ts]; simpl in Hv; try discriminate.
    destruct (to_datetime E str); [discriminate|]. by injection Hv as <-.
  - intros [= ->]. by apply df_getitem_Raise_inv in Hs as ->.
Qed.

Lemma convert_numeric_raises df e :
  convert_numeric df = Raise e → is_Exception e = true.
Proof.
  unfold convert_numeric. intros H.
  apply foldR_Raise_inv in H as (df' & col & H). unfold convert_numeric_column in H.
  destruct (df_getitem df' col) as [s|e'] eqn:Hs; simpl in H; [done|].
  injection H as <-. by apply df_getitem_Raise_inv in Hs as ->.
Qed.

(** Whatever the [try] suite of [load_data] raises is an [Exception]. *)
Lemma load_data_try_raises w e w' :
  load_data_try E w = (Raise e, w') → is_Exception e = true.
Proof.
  unfold load_data_try, get_db_connection, read_sql_query_all.
  unfold try_except, mbind, M_bind, get_world, lift, raise. simpl.
  destruct (connectable w); simpl; [|by outcome_inv].
  destruct (table w) as [t|]; simpl; [|by outcome_inv].
  destruct (convert_timestamps E _) as [df1|e1] eqn:H1; simpl.
  - destruct (convert_numeric df1) as [df2|e2] eqn:H2; simpl; [done|].
    pose proof (convert_numeric_raises _ _ H2).
    destruct (is_sqlite3_Error e2); simpl; by outcome_inv.
  - pose proof (convert_timestamps_raises _ _ H1).
    destruct (is_sqlite3_Error e1); simpl; by outcome_inv.
Qed.

Lemma load_data_miss w :
  cache_miss w →
  load_data E w =
    match load_data_uncached E w with
    | (Ok df, w') => (Ok df, set_cache (Some (now w', df, drop (List.length (ui w)) (ui w'))) w')
    | r => r
    end.
Proof.
  unfold cache_miss, load_data, st_cache_data.
  destruct (cache w) as [[[stored_at df] shown]|]; [|done].
  intros Hexp. rewrite bool_decide_eq_false_2 by lia. done.
Qed.

(** The three ways the suite fails. *)
Lemma load_data_try_cannot_connect w :
  connectable w = false →
  ∃ w', load_data_try E w = (Raise (SqliteError "unable to open database file"), w').
Proof.
  intros H. unfold load_data_try, get_db_connection, try_except, mbind, M_bind, get_world.
  rewrite H. simpl. eauto.
Qed.

Lemma load_data_try_no_table w :
  connectable w = true → table w = None →
  ∃ msg, load_data_try E w = (Raise (DatabaseError msg), w).
Proof.
  intros Hc Ht.
  unfold load_data_try, get_db_connection, read_sql_query_all.
  unfold try_except, mbind, M_bind, get_world.
  rewrite Hc. simpl. rewrite Ht. simpl. eauto.
Qed.

Lemma load_data_try_bad_timestamp w t r s :
  connectable w = true → table w = Some t →
  "Observation_Date" ∈ schema_names t →
  r ∈ t_rows t → r !! "Observation_Date" = Some (VStr s) → to_datetime E s = None →
  ∃ msg, load_data_try E w = (Raise (ValueError msg), w).
Proof.
  intros Hc Ht Hcol Hr Hcell Hparse.
  unfold load_data_try, get_db_connection, read_sql_query_all.
  unfold try_except, mbind, M_bind, get_world, lift.
  rewrite Hc. simpl. rewrite Ht. simpl.
  set (df := read_frame t).
  assert (∃ msg, convert_timestamps E df = Raise (ValueError msg)) as [msg ->];
    [|simpl; eauto].
  unfold convert_timestamps.
  assert ("Observation_Date" ∈ column_names df) as Hdf.
  { unfold column_names, df, read_frame. simpl.
    by rewrite <- list_fmap_compose, list_fmap_id. }
  unfold has_column. rewrite bool_decide_eq_true_2 by done.
  destruct (column_dtype_Some df _ Hdf) as (d & Hd & _).
  unfold df_getitem. rewrite Hd. simpl.
  destruct (mapR _ _) as [vs|e] eqn:Hvs; simpl.
  - exfalso. clear Hd Hdf.
    assert (∀ (rs : list (gmap string value)) vs,
              mapR (to_datetime_cell E) ((λ r, cell r "Observation_Date") <$> rs) = Ok vs →
              ∀ r', r' ∈ rs → is_Ok (to_datetime_cell E (cell r' "Observation_Date")) = true)
      as Hall.
    { clear. induction rs as [|r0 rs IH]; intros vs H r' Hr'; [by apply elem_of_nil in Hr'|].
      csimpl in H. bind_inv_as H v Hv. bind_inv_as H vs' Hvs'.
      apply elem_of_cons in Hr' as [->|Hr']; [by rewrite Hv|]. by eapply IH. }
    pose (r' := fetched_row (schema_names t) r).
    specialize (Hall _ _ Hvs r').
    assert (cell r' "Observation_Date" = VStr s) as Hr'.
    { unfold cell at 1, r', fetched_row.
      erewrite (elem_of_list_to_map_1' _ "Observation_Date" (cell r "Observation_Date")).
      - simpl. unfold cell. by rewrite Hcell.
      - intros y Hy. apply list_elem_of_fmap in Hy as (c & [= <- ->] & _). done.
      - apply list_elem_of_fmap. by exists "Observation_Date". }
    rewrite Hr' in Hall. simpl in Hall. rewrite Hparse in Hall.
    discriminate Hall. apply list_elem_of_fmap. by exists r.
  - apply mapR_Raise_inv in Hvs as (v & _ & Hv).
    destruct v as [z|str| |ts]; simpl in Hv; try discriminate.
    destruct (to_datetime E str); [discriminate|]. injection Hv as <-. eauto.
Qed.

End LoaderFacts.

(** ** Loading what the table holds *)

Lemma fetched_row_lookup names r c :
  c ∈ names → fetched_row names r !! c = Some (cell r c).
Proof.
  intros Hc. unfold fetched_row. apply elem_of_list_to_map_1'.
  - intros y Hy. apply list_elem_of_fmap in Hy as (c' & [= <- ->] & _). done.
  - apply list_elem_of_fmap. by exists c.
Qed.

Lemma fetched_row_cell names r c : c ∈ names → cell (fetched_row names r) c = cell r c.
Proof. intros Hc. unfold cell at 1. by rewrite fetched_row_lookup. Qed.

Lemma mapR_Ok_length {A B} (f : A → result B) l ys :
  mapR f l = Ok ys → List.length ys = List.length l.
Proof.
  revert ys. induction l as [|x l IH]; intros ys H; simpl in H.
  - by injection H as <-.
  - bind_inv_as H y Hy. bind_inv_as H ys' Hys. injection H as <-. simpl.
    by rewrite (IH ys').
Qed.

Lemma mapR_Ok_lookup {A B} (f : A → result B) l ys i x :
  mapR f l = Ok ys → l !! i = Some x → ∃ y, ys !! i = Some y ∧ f x = Ok y.
Proof.
  revert ys i. induction l as [|x' l IH]; intros ys i H Hi; [done|].
  simpl in H. bind_inv_as H y Hy. bind_inv_as H ys' Hys. injection H as <-.
  destruct i as [|i]; simpl in *.
  - injection Hi as ->. eauto.
  - by apply (IH ys').
Qed.

Lemma mapR_Ok_all {A B} (f : A → result B) l :
  (∀ x, x ∈ l → is_Ok (f x) = true) → ∃ ys, mapR f l = Ok ys.
Proof.
  induction l as [|x l IH]; intros H; simpl; [by eexists|].
  destruct (f x) as [y|e] eqn:Hx.
  - destruct IH as [ys ->]; [intros; by apply H, list_elem_of_further|]. simpl. eauto.
  - specialize (H x (list_elem_of_here _ _)). by rewrite Hx in H.
Qed.

Lemma infer_dtype_numeric vs :
  infer_dtype vs = int64 ∨ infer_dtype vs = float64 →
  Forall (λ v, is_int_or_null v = true) vs.
Proof.
  unfold infer_dtype. destruct vs as [|v vs]; [by intros [|]|].
  destruct (forallb is_int (v :: vs)) eqn:Hint.
  - intros _. apply Forall_forall. intros x Hx.
    rewrite forallb_forall in Hint. specialize (Hint x). rewrite <- list_elem_of_In in Hint.
    specialize (Hint Hx). by destruct x.
  - destruct (forallb is_int_or_null (v :: vs)) eqn:Hnull; simpl.
    + intros _. apply Forall_forall. intros x Hx.
      rewrite forallb_forall in Hnull. apply Hnull. by apply list_elem_of_In.
    + by intros [|].
Qed.

Lemma set_column_names df c d vs : column_names (set_column df c d vs) = column_names df.
Proof.
  unfold column_names, set_column. simpl. rewrite <- list_fmap_compose.
  apply list_fmap_ext. intros _ [c' d'] _. simpl. by case_bool_decide.
Qed.

Lemma columns_unique df c d d' :
  NoDup (column_names df) → (c, d) ∈ columns df → (c, d') ∈ columns df → d = d'.
Proof.
  intros Hnd H1 H2.
  pose proof (elem_of_list_to_map_1 (M := gmap string) _ _ _ Hnd H1) as E1.
  pose proof (elem_of_list_to_map_1 (M := gmap string) _ _ _ Hnd H2) as E2.
  congruence.
Qed.

(** Writing back a column as it stands changes nothing. *)
Lemma set_column_same df c d (f : value → value) :
  NoDup (column_names df) → (c, d) ∈ columns df →
  (∀ r, r ∈ rows df → ∃ v, r !! c = Some v ∧ f v = v) →
  set_column df c d (f <$> ((λ r, cell r c) <$> rows df)) = df.
Proof.
  intros Hnd Hc Hrows. unfold set_column. destruct df as [cols rs]. simpl in *. f_equal.
  - transitivity (id <$> cols); [|apply list_fmap_id].
    apply list_fmap_ext. intros i [c' d'] Hin. simpl. case_bool_decide; [|done].
    subst c'. f_equal.
    apply (columns_unique (mkDataFrame cols rs) c); [done|done|].
    by apply list_elem_of_lookup_2 in Hin.
  - rewrite <- list_fmap_compose, zip_with_fmap_r, zip_with_diag.
    transitivity (id <$> rs); [|apply list_fmap_id].
    apply list_fmap_ext. intros i r Hin. simpl.
    destruct (Hrows r) as (v & Hv & Hf); [by apply list_elem_of_lookup_2 in Hin|].
    unfold cell. rewrite Hv. simpl. rewrite Hf. by apply insert_id.
Qed.

(** The numeric pass leaves alone a frame whose numeric columns hold
    integers and missing values only, as frames read from the store do. *)
Lemma convert_numeric_same df :
  NoDup (column_names df) →
  (∀ r c, r ∈ rows df → c ∈ column_names df → is_Some (r !! c)) →
  (∀ c d r, (c, d) ∈ columns df → d = int64 ∨ d = float64 → r ∈ rows df →
            is_int_or_null (cell r c) = true) →
  convert_numeric df = Ok df.
Proof.
  intros Hnd Hkeys Hnum. unfold convert_numeric.
  assert (∀ c, c ∈ numeric_columns df → ∃ d, (c, d) ∈ columns df ∧ (d = int64 ∨ d = float64))
    as Hcols.
  { intros c Hc. unfold numeric_columns in Hc.
    apply list_elem_of_fmap in Hc as ([c' d] & Heq & Hin). simpl in Heq. subst c'.
    apply list_elem_of_filter in Hin as [Hd Hin]. eauto. }
  revert Hcols. generalize (numeric_columns df) as cols.
  induction cols as [|c cols IH]; intros Hcols; [done|].
  cbn [foldR].
  destruct (Hcols c (list_elem_of_here _ _)) as (d & Hin & Hd).
  assert (c ∈ column_names df) as Hc.
  { apply list_elem_of_fmap. by exists (c, d). }
  destruct (column_dtype_Some df c Hc) as (d' & Hd' & Hin').
  assert (d' = d) as -> by (by apply (columns_unique df c)).
  assert (convert_numeric_column df c = Ok df) as ->.
  { unfold convert_numeric_column, df_getitem. rewrite Hd'.
    cbn [mbind result_bind s_dtype s_values].
    rewrite set_column_same; [done|done|done|].
    intros r Hr. destruct (Hkeys r c Hr Hc) as [v Hv]. exists v. split; [done|].
    specialize (Hnum c d r Hin Hd Hr). unfold cell in Hnum. rewrite Hv in Hnum.
    simpl in Hnum. by destruct v. }
  cbn [mbind result_bind]. apply IH. intros c' Hc'. by apply Hcols, list_elem_of_further.
Qed.

Lemma read_frame_names t : column_names (read_frame t) = schema_names t.
Proof.
  unfold column_names, read_frame. simpl. by rewrite <- list_fmap_compose, list_fmap_id.
Qed.

Lemma read_frame_keys t r c :
  r ∈ rows (read_frame t) → c ∈ schema_names t → is_Some (r !! c).
Proof.
  unfold read_frame. simpl. intros Hr Hc.
  apply list_elem_of_fmap in Hr as (r0 & -> & _). rewrite fetched_row_lookup by done. eauto.
Qed.

Lemma read_frame_numeric t c d r :
  (c, d) ∈ columns (read_frame t) → d = int64 ∨ d = float64 → r ∈ rows (read_frame t) →
  is_int_or_null (cell r c) = true.
Proof.
  unfold read_frame at 1. simpl. intros Hcd Hd Hr.
  apply list_elem_of_fmap in Hcd as (c' & [= -> ->] & _).
  apply infer_dtype_numeric in Hd. rewrite Forall_forall in Hd. apply Hd.
  apply list_elem_of_fmap. by exists r.
Qed.

Section LoadedRows.
Context (E : Externals).

(** What a stored cell reads as after [load_data]: the timestamp parsed
    in [Observation_Date], the stored value elsewhere. *)
Lemma convert_timestamps_rows df :
  NoDup (column_names df) →
  (∀ r, r ∈ rows df → "Observation_Date" ∈ column_names df →
        is_Ok (to_datetime_cell E (cell r "Observation_Date")) = true) →
  ∃ df', convert_timestamps E df = Ok df' ∧
    column_names df' = column_names df ∧
    List.length (rows df') = List.length (rows df) ∧
    (∀ c d, (c, d) ∈ columns df' → d = int64 ∨ d = float64 →
            c ≠ "Observation_Date" ∧ (c, d) ∈ columns df) ∧
    (∀ i r, rows df !! i = Some r →
       ∃ r', rows df' !! i = Some r' ∧
             (∀ c, is_Some (r !! c) → is_Some (r' !! c)) ∧
             ∀ c, c ∈ column_names df → cell r' c = loaded_cell E c (cell r c)).
Proof.
  intros Hnd Hparse. unfold convert_timestamps, has_column.
  destruct (bool_decide_reflect ("Observation_Date" ∈ column_names df)) as [Hod|Hod].
  - destruct (column_dtype_Some df _ Hod) as (d0 & Hd0 & _).
    unfold df_getitem. rewrite Hd0. cbn [mbind result_bind s_values].
    destruct (mapR_Ok_all (to_datetime_cell E) ((λ r, cell r "Observation_Date") <$> rows df))
      as [vs Hvs].
    { intros v Hv. apply list_elem_of_fmap in Hv as (r & -> & Hr). by apply Hparse. }
    rewrite Hvs. cbn [mbind result_bind]. eexists. split; [done|].
    pose proof (mapR_Ok_length _ _ _ Hvs) as Hlen. rewrite length_fmap in Hlen.
    split; [apply set_column_names|].
    split; [apply set_column_rows_length; lia|].
    split.
    + intros c d Hcd Hd. unfold set_column in Hcd. simpl in Hcd.
      apply list_elem_of_fmap in Hcd as ([c' d'] & Heq & Hin). simpl in Heq.
      case_bool_decide; injection Heq as -> ->.
      * by destruct Hd.
      * done.
    + intros i r Hi.
      destruct (mapR_Ok_lookup _ _ vs i (cell r "Observation_Date") Hvs) as (v & Hv & Hcell).
      { by rewrite list_lookup_fmap, Hi. }
      exists (<["Observation_Date" := v]> r). split; [|split].
      * unfold set_column. simpl. rewrite lookup_zip_with, Hi. simpl. by rewrite Hv.
      * intros c Hc. destruct (decide (c = "Observation_Date")) as [->|Hne].
        -- rewrite lookup_insert_eq. eauto.
        -- by rewrite lookup_insert_ne.
      * intros c _. unfold loaded_cell, cell at 1. case_bool_decide as Hc.
        -- subst c. rewrite lookup_insert_eq. simpl. by rewrite Hcell.
        -- by rewrite lookup_insert_ne.
  - exists df. split; [done|]. split; [done|]. split; [done|]. split.
    + intros c d Hcd _. split; [|done]. intros ->. apply Hod.
      apply list_elem_of_fmap. by exists ("Observation_Date", d).
    + intros i r Hi. exists r. split; [done|]. split; [done|].
      intros c Hc. unfold loaded_cell. rewrite bool_decide_eq_false_2; [done|].
      by intros ->.
Qed.

Lemma load_data_try_rows w t :
  connectable w = true → table w = Some t → NoDup (schema_names t) →
  (∀ r, r ∈ t_rows t → "Observation_Date" ∈ schema_names t →
        is_Ok (to_datetime_cell E (cell r "Observation_Date")) = true) →
  ∃ df, load_data_try E w = (Ok df, w) ∧
    column_names df = schema_names t ∧
    List.length (rows df) = List.length (t_rows t) ∧
    ∀ i r, t_rows t !! i = Some r →
      ∃ r', rows df !! i = Some r' ∧
            ∀ c, c ∈ schema_names t → cell r' c = loaded_cell E c (cell r c).
Proof.
  intros Hconn Htable Hnd Hparse.
  destruct (convert_timestamps_rows (read_frame t)) as (df & Hdf & Hnames & Hlen & Hnum & Hrows).
  { by rewrite read_frame_names. }
  { intros r Hr Hod. rewrite read_frame_names in Hod.
    unfold read_frame in Hr. simpl in Hr. apply list_elem_of_fmap in Hr as (r0 & -> & Hr0).
    rewrite fetched_row_cell by done. by apply Hparse. }
  rewrite read_frame_names in Hnames.
  assert (convert_numeric df = Ok df) as Hsame.
  { apply convert_numeric_same.
    - by rewrite Hnames.
    - intros r c Hr Hc. rewrite Hnames in Hc.
      apply list_elem_of_lookup in Hr as [i Hi].
      assert (is_Some (rows (read_frame t) !! i)) as [r0 Hr0].
      { apply lookup_lt_is_Some. rewrite <- Hlen. by eapply lookup_lt_Some. }
      destruct (Hrows i r0 Hr0) as (r' & Hr' & Hkeys & _).
      assert (r' = r) as -> by congruence.
      apply Hkeys. apply (read_frame_keys t); [|done]. by eapply list_elem_of_lookup_2.
    - intros c d r Hcd Hd Hr. destruct (Hnum c d Hcd Hd) as [Hne Hcd0].
      apply list_elem_of_lookup in Hr as [i Hi].
      assert (is_Some (rows (read_frame t) !! i)) as [r0 Hr0].
      { apply lookup_lt_is_Some. rewrite <- Hlen. by eapply lookup_lt_Some. }
      destruct (Hrows i r0 Hr0) as (r' & Hr' & _ & Hcells).
      assert (r' = r) as -> by congruence.
      rewrite Hcells.
      + unfold loaded_cell. rewrite bool_decide_eq_false_2 by done.
        apply (read_frame_numeric t c d); [done|done|]. by eapply list_elem_of_lookup_2.
      + rewrite read_frame_names. apply list_elem_of_fmap in Hcd0 as (c' & [= -> _] & Hc'). done. }
  exists df. split; [|split; [done|split]].
  - unfold load_data_try, get_db_connection, read_sql_query_all.
    unfold try_except, mbind, M_bind, get_world, lift.
    rewrite Hconn. simpl. rewrite Htable. simpl. rewrite Hdf. simpl. by rewrite Hsame.
  - rewrite Hlen. unfold read_frame. simpl. by rewrite length_fmap.
  - intros i r Hi.
    destruct (Hrows i (fetched_row (schema_names t) r)) as (r' & Hr' & _ & Hcells).
    { unfold read_frame. simpl. by rewrite list_lookup_fmap, Hi. }
    exists r'. split; [done|]. intros c Hc.
    rewrite Hcells by (by rewrite read_frame_names). by rewrite fetched_row_cell.
Qed.

End LoadedRows.

(** ** C9: a failed load gives an empty frame *)

(** C9, amended.  Whenever the [try] suite of [load_data] raises, while
    connecting, querying or converting, and no cached result answers the
    call, [load_data] returns [pd.DataFrame()], a frame without rows and
    without columns, instead of propagating.  The frame is empty, as is the
    frame loaded from a table without rows (and with distinct column names,
    as SQLite has them); the latter keeps the columns of the table, so the
    two agree on [.empty] and differ in their columns. *)
Theorem load_data_failure_returns_empty_frame (E : Externals) w e w' :
  cache_miss w →
  load_data_try E w = (Raise e, w') →
  (load_data E w).1 = Ok pd_DataFrame ∧
  df_empty pd_DataFrame = true ∧
  (∀ w0 t, cache_miss w0 → connectable w0 = true → table w0 = Some t →
           NoDup (schema_names t) → t_rows t = [] →
           ∃ df, (load_data E w0).1 = Ok df ∧ df_empty df = true ∧
                 column_names df = schema_names t).
Proof.
  intros Hmiss Hraise. split; [|split; [done|]].
  - rewrite (load_data_miss E w Hmiss). unfold load_data_uncached, try_except.
    rewrite Hraise, (load_data_try_raises E w e w' Hraise). done.
  - intros w0 t Hmiss0 Hconn Htable Hnd Hrows.
    destruct (load_data_try_rows E w0 t Hconn Htable Hnd) as (df & Hdf & Hnames & Hlen & _).
    { intros r Hr. rewrite Hrows in Hr. by apply elem_of_nil in Hr. }
    exists df. split; [|split; [|done]].
    + rewrite (load_data_miss E w0 Hmiss0). unfold load_data_uncached, try_except.
      by rewrite Hdf.
    + rewrite Hrows in Hlen. unfold df_empty.
      destruct (rows df); [|done]. by destruct (columns df).
Qed.

Lemma load_data_unreachable_store :
  cache_miss Sample.unreachable ∧
  load_data_try Sample.externals Sample.unreachable
    = (Raise (SqliteError "unable to open database file"),
       (load_data_try Sample.externals Sample.unreachable).2) ∧
  (load_data Sample.externals Sample.unreachable).1 = Ok pd_DataFrame.
Proof.
  assert (cache_miss Sample.unreachable) as Hmiss by exact I.
  assert (load_data_try Sample.externals Sample.unreachable
          = (Raise (SqliteError "unable to open database file"),
             (load_data_try Sample.externals Sample.unreachable).2)) as Hraise
    by (vm_compute; reflexivity).
  split; [exact Hmiss|]. split; [exact Hraise|].
  exact (proj1 (load_data_failure_returns_empty_frame Sample.externals Sample.unreachable
                  _ _ Hmiss Hraise)).
Defined.

(** C9 as written fails.  A load from a store that cannot be
    opened and a load from the table [create_database] has just made return
    different values: no columns in the first, the 47 columns of the table
    in the second. *)
Lemma failed_load_differs_from_empty_table :
  (load_data Sample.externals Sample.unreachable).1 = Ok pd_DataFrame ∧
  t_rows <$> table Sample.fresh = Some [] ∧
  (load_data Sample.externals Sample.fresh).1 = Ok empty_resume_frame ∧
  (load_data Sample.externals Sample.fresh).1 ≠ (load_data Sample.externals Sample.unreachable).1.
Proof.
  assert ((load_data Sample.externals Sample.unreachable).1 = Ok pd_DataFrame) as H1
    by (vm_compute; reflexivity).
  assert ((load_data Sample.externals Sample.fresh).1 = Ok empty_resume_frame) as H2
    by (vm_compute; reflexivity).
  split; [exact H1|]. split; [reflexivity|]. split; [exact H2|].
  rewrite H1, H2. discriminate.
Qed.

(** ** C2: a valid entry is stored, and loaded once the cache lets go *)

Lemma validate_accepts data : valid_entry data → validate_entry_data data = (true, EmptyString).
Proof.
  intros [(a & Ha & Hrange) Hreq].
  unfold validate_entry_data, validate_entry_data_try, dict_getitem.
  rewrite Ha. simpl.
  destruct (Z.ltb_spec a 18) as [?|_]; [lia|]. simpl.
  destruct (Z.gtb_spec a 100) as [?|_]; [lia|]. simpl.
  unfold required_fields in *.
  repeat (apply Forall_cons in Hreq as [? Hreq]).
  simpl. by repeat match goal with H : truthy _ = true |- _ => rewrite H; clear H end.
Qed.

Section StoreFacts.
Context (E : Externals).





End StoreFacts.






(** * Further properties of the program *)

(** ** Validation of an entry *)

Lemma check_required_true data fields :
  (check_required data fields).1 = true ↔
  Forall (λ field, truthy (dict_get data field) = true) fields.
Proof.
  induction fields as [|field rest IH]; simpl.
  - split; [constructor|done].
  - destruct (truthy (dict_get data field)) eqn:Ht; simpl.
    + rewrite IH. split; [by constructor|by inversion 1].
    + split; [done|]. inversion 1; congruence.
Qed.

Lemma check_required_first data pre field post :
  Forall (λ f, truthy (dict_get data f) = true) pre →
  truthy (dict_get data field) = false →
  check_required data (pre ++ field :: post) = (false, field +:+ " is required").
Proof.
  intros Hpre Hfield. induction Hpre as [|f pre Hf _ IH]; simpl.
  - by rewrite Hfield.
  - by rewrite Hf.
Qed.

Lemma validate_true_valid data : (validate_entry_data data).1 = true → valid_entry data.
Proof.
  unfold validate_entry_data, validate_entry_data_try, dict_getitem, valid_entry.
  set (checked := check_required data required_fields).
  destruct (data !! "Age") as [[a| | |]|] eqn:Ha; simpl; try done.
  destruct (Z.ltb_spec a 18) as [?|Hge]; simpl; [done|].
  destruct (Z.gtb_spec a 100) as [?|Hle]; simpl; [done|].
  subst checked. intros Hreq%check_required_true. split; [|done].
  exists a. split; [done|lia].
Qed.


(** X2.  With an age in range, the message of a refused entry names the
    first of the required fields, in the order [Age], [Sex],
    [Employment_Status], [Healthcare_Role], whose value is missing or
    empty. *)
Theorem validate_entry_data_names_first_empty_field
    (data : gmap string value) (a : Z) (pre : list string) (field : string)
    (post : list string) :
  data !! "Age" = Some (VInt a) → (18 ≤ a ≤ 100)%Z →
  required_fields = pre ++ field :: post →
  Forall (λ f, truthy (dict_get data f) = true) pre →
  truthy (dict_get data field) = false →
  validate_entry_data data = (false, field +:+ " is required").
Proof.
  intros Ha Hrange Hfields Hpre Hfield.
  unfold validate_entry_data, validate_entry_data_try, dict_getitem.
  rewrite Hfields, (check_required_first data pre field post Hpre Hfield), Ha. simpl.
  destruct (Z.ltb_spec a 18) as [?|_]; [lia|]. simpl.
  by destruct (Z.gtb_spec a 100) as [?|_]; [lia|].
Qed.

Lemma validate_entry_data_names_first_empty_field_witness :
  validate_entry_data (<["Employment_Status" := VStr EmptyString]> (delete "Sex" Sample.entry))
  = (false, "Sex is required").
Proof.
  apply (validate_entry_data_names_first_empty_field _ 34 ["Age"] "Sex"
           ["Employment_Status"; "Healthcare_Role"]).
  - reflexivity.
  - lia.
  - reflexivity.
  - repeat constructor.
  - reflexivity.
Defined.



(** ** Inserting an entry *)

Section InsertFacts.
Context (E : Externals).

Lemma sql_insert_raises data t e :
  sql_insert E data t = Raise e → is_sqlite3_Error e = true.
Proof.
  unfold sql_insert. repeat case_match; by intros [= <-].
Qed.


Lemma insert_statement_raises data w e :
  insert_statement E data w = Raise e → is_sqlite3_Error e = true.
Proof.
  unfold insert_statement. repeat case_match; try by intros [= <-].
  apply sql_insert_raises.
Qed.

(** The four ways through [insert_entry]. *)
Lemma insert_entry_unfold data w :
  insert_entry E data w =
    if negb (validate_entry_data data).1 then
      (Ok false,
       add_metric "insert_entry"
         (add_ui (st_error_ev ("Validation error: " +:+ (validate_entry_data data).2)) w))
    else
      match insert_statement E data w with
      | Ok t' => (Ok true, add_metric "insert_entry" (set_table (Some t') w))
      | Raise e =>
          (Ok false,
           add_metric "insert_entry"
             (add_ui (st_error_ev ("⚠️ Failed to save data: " +:+ exn_str e))
                (add_log ("Database error: " +:+ exn_str e)
                   (add_ui (st_error_ev "An unexpected error occurred. Please check the logs.")
                      (add_log ("Database connection error: " +:+ exn_str e) w)))))
      end.
Proof.
  unfold insert_entry.
  destruct (validate_entry_data data) as [[|] msg]; simpl; [|done].
  destruct (insert_statement E data w) as [t'|e] eqn:Hst.
  2: pose proof (insert_statement_raises _ _ _ Hst) as He; destruct e; try done; clear He.
  all: revert Hst; unfold insert_statement.
  all: unfold monitor_performance, get_db_connection, execute_insert.
  all: unfold try_except, mbind, M_bind, get_world, lift, modify, raise, mret, M_ret,
         logger_error, st_error, modify.
  all: destruct (connectable w); simpl; [destruct (table w) as [t|]; simpl|].
  all: try (intros ->; done).
  all: intros [= <-]; done.
Qed.

End InsertFacts.


(** X5.  When the store refuses a valid entry, for whatever reason, the
    user is told twice: the connection manager shows its generic message
    and logs a connection error, then [insert_entry] shows and logs the
    cause; the table is as it was. *)
Theorem insert_entry_reports_refusal_twice (E : Externals) (data : gmap string value)
    (w : World) :
  valid_entry data →
  (insert_entry E data w).1 = Ok false →
  ∃ cause,
    ui (insert_entry E data w).2
      = ui w ++ [st_error_ev "An unexpected error occurred. Please check the logs.";
                 st_error_ev ("⚠️ Failed to save data: " +:+ cause)] ∧
    log (insert_entry E data w).2
      = log w ++ ["Database connection error: " +:+ cause;
                  "Database error: " +:+ cause] ∧
    table (insert_entry E data w).2 = table w.
Proof.
  intros Hvalid%validate_accepts.
  rewrite insert_entry_unfold, Hvalid. simpl.
  destruct (insert_statement E data w) as [t'|e]; simpl; [done|]. intros _.
  exists (exn_str e). by rewrite <- !(assoc_L (++)).
Qed.

Lemma insert_entry_reports_refusal_twice_witness :
  ∃ cause,
    ui (insert_entry Sample.externals Sample.entry Sample.unreachable).2
      = ui Sample.unreachable ++
        [st_error_ev "An unexpected error occurred. Please check the logs.";
         st_error_ev ("⚠️ Failed to save data: " +:+ cause)] ∧
    log (insert_entry Sample.externals Sample.entry Sample.unreachable).2
      = log Sample.unreachable ++
        ["Database connection error: " +:+ cause; "Database error: " +:+ cause] ∧
    table (insert_entry Sample.externals Sample.entry Sample.unreachable).2
      = table Sample.unreachable.
Proof.
  apply (insert_entry_reports_refusal_twice Sample.externals Sample.entry Sample.unreachable).
  - apply validate_true_valid. reflexivity.
  - reflexivity.
Defined.



Lemma used_ids_le_max_id t i : i ∈ used_ids t → (i ≤ max_id t)%Z.
Proof.
  unfold max_id. induction (used_ids t) as [|j l IH]; simpl.
  - by intros ?%elem_of_nil.
  - intros [->|Hin]%elem_of_cons; [lia|]. specialize (IH Hin). lia.
Qed.

Lemma primary_key_ok_snoc t rs r i :
  primary_key_ok t → row_id r = Some i → i ∉ used_ids t →
  primary_key_ok (mkTable (t_schema t) true rs (t_rows t ++ [r])).
Proof.
  intros [Hall Hnd] Hr Hi. unfold primary_key_ok, used_ids in *. simpl. split.
  - apply Forall_app. split; [done|]. repeat constructor. by rewrite Hr.
  - rewrite omap_app. simpl. rewrite Hr. apply NoDup_app. split; [done|].
    split; [|apply NoDup_singleton].
    intros j Hj ->%list_elem_of_singleton. done.
Qed.

Lemma sql_insert_primary_key (E : Externals) data t t' :
  t_autoinc t = true → primary_key_ok t →
  sql_insert E data t = Ok t' → primary_key_ok t'.
Proof.
  intros Hauto Hpk. unfold sql_insert. rewrite Hauto.
  repeat case_match; intros [= <-]; try done.
  - apply (primary_key_ok_snoc t _ _ z); [done| |].
    + unfold row_id. by simplify_option_eq.
    + match goal with H : bool_decide _ = false |- _ => by apply bool_decide_eq_false_1 in H end.
  - apply (primary_key_ok_snoc t _ _ (Z.max (t_seq t) (max_id t) + 1)); [done| |].
    + unfold row_id. by rewrite lookup_insert_eq.
    + intros Hin%used_ids_le_max_id. lia.
  - apply (primary_key_ok_snoc t _ _ (Z.max (t_seq t) (max_id t) + 1)); [done| |].
    + unfold row_id. by rewrite lookup_insert_eq.
    + intros Hin%used_ids_le_max_id. lia.
Qed.

(** X7.  On the table [create_database] makes, whose [id] is an
    AUTOINCREMENT primary key, [insert_entry] keeps the key: if every row
    had an integer id of its own before the call, so it is after it,
    whether or not the entry was stored and whether or not it brought an
    id of its own. *)
Theorem insert_entry_keeps_primary_key (E : Externals) (data : gmap string value)
    (w : World) (t t' : Table) :
  table w = Some t → t_autoinc t = true → primary_key_ok t →
  table (insert_entry E data w).2 = Some t' →
  primary_key_ok t'.
Proof.
  intros Htable Hauto Hpk. rewrite insert_entry_unfold.
  destruct (negb _); simpl; [by rewrite Htable; intros [= <-]|].
  destruct (insert_statement E data w) as [t1|e] eqn:Hst; simpl.
  - intros [= <-]. unfold insert_statement in Hst. rewrite Htable in Hst.
    destruct (connectable w); [|done]. by eapply sql_insert_primary_key.
  - rewrite Htable. by intros [= <-].
Qed.

Lemma insert_entry_keeps_primary_key_witness :
  primary_key_ok
    (default created_table (table (insert_entry Sample.externals Sample.entry Sample.fresh).2)).
Proof.
  apply (insert_entry_keeps_primary_key Sample.externals Sample.entry Sample.fresh
           created_table).
  - reflexivity.
  - reflexivity.
  - split; [constructor|]. vm_compute. constructor.
  - vm_compute. reflexivity.
Defined.

(** ** Loading *)

Section LoadFacts.
Context (E : Externals).

(** The function under the cache always returns a frame, and touches
    neither the table nor the clock. *)
Lemma load_data_uncached_returns w :
  ∃ df w', load_data_uncached E w = (Ok df, w') ∧
           table w' = table w ∧ now w' = now w ∧ cache w' = cache w ∧
           connectable w' = connectable w.
Proof.
  unfold load_data_uncached, try_except.
  destruct (load_data_try E w) as [[df|e] w'] eqn:Htry.
  - exists df, w'. split; [done|]. revert Htry.
    unfold load_data_try, get_db_connection, read_sql_query_all.
    unfold try_except, mbind, M_bind, get_world, lift, raise, logger_error, st_error,
      modify, mret, M_ret.
    destruct (connectable w) eqn:Hc; simpl; [|done].
    destruct (table w) eqn:Ht; simpl; [|done].
    destruct (convert_timestamps E _) as [df1|e1]; simpl.
    + destruct (convert_numeric df1) as [df2|e2]; simpl; [by intros [= _ <-]|].
      by destruct (is_sqlite3_Error e2).
    + by destruct (is_sqlite3_Error e1).
  - rewrite (load_data_try_raises E w e w' Htry).
    eexists _, _. split; [done|]. revert Htry.
    unfold load_data_try, get_db_connection, read_sql_query_all.
    unfold try_except, mbind, M_bind, get_world, lift, raise, logger_error, st_error,
      modify, mret, M_ret.
    destruct (connectable w) eqn:Hc; simpl; [|by intros [= _ <-]].
    destruct (table w) eqn:Ht; simpl; [|by intros [= _ <-]].
    destruct (convert_timestamps E _) as [df1|e1]; simpl.
    + destruct (convert_numeric df1) as [df2|e2]; simpl; [done|].
      destruct (is_sqlite3_Error e2); by intros [= _ <-].
    + destruct (is_sqlite3_Error e1); by intros [= _ <-].
Qed.

(** A call the cache does not answer stores what it returns. *)
Lemma load_data_miss_stores w :
  cache_miss w →
  ∃ df shown,
    (load_data E w).1 = Ok df ∧
    (load_data_uncached E w).1 = Ok df ∧
    cache (load_data E w).2 = Some (now w, df, shown) ∧
    now (load_data E w).2 = now w.
Proof.
  intros Hmiss. rewrite (load_data_miss E w Hmiss).
  destruct (load_data_uncached_returns w) as (df & w' & -> & _ & Hnow & _).
  exists df, (drop (List.length (ui w)) (ui w')). simpl. by rewrite Hnow.
Qed.

(** A call the cache answers returns the stored frame and replays the
    elements stored with it; store and log are not touched. *)
Lemma load_data_hit w stored_at df shown :
  cache w = Some (stored_at, df, shown) → (now w < stored_at + ttl)%nat →
  (load_data E w).1 = Ok df ∧
  table (load_data E w).2 = table w ∧
  log (load_data E w).2 = log w.
Proof.
  intros Hcache Hfresh. unfold load_data, st_cache_data.
  rewrite Hcache, bool_decide_eq_true_2 by done. simpl. split; [done|].
  clear. revert w. induction shown as [|ev shown IH]; intros w; [done|].
  simpl. destruct (IH (add_ui ev w)) as [-> ->]. done.
Qed.

End LoadFacts.

(** X8.  [load_data] never raises: whatever the state of the store and of
    the cache, the caller gets a frame. *)
Theorem load_data_never_raises (E : Externals) (w : World) :
  ∃ df, (load_data E w).1 = Ok df.
Proof.
  unfold load_data, st_cache_data.
  destruct (load_data_uncached_returns E w) as (df & w' & -> & _).
  destruct (cache w) as [[[stored_at df0] shown]|]; [|by exists df].
  destruct (bool_decide _); [by exists df0|by exists df].
Qed.

(** X9.  Once [load_data] has run, every call made less than 3600 seconds
    later returns the frame of that run, whatever has happened to the
    table in between, and leaves store and log alone. *)
Theorem load_data_answers_from_cache_for_an_hour (E : Externals) (w w2 : World) :
  cache_miss w →
  cache w2 = cache (load_data E w).2 →
  (now w2 < now (load_data E w).2 + 3600)%nat →
  (load_data E w2).1 = (load_data E w).1 ∧
  table (load_data E w2).2 = table w2 ∧
  log (load_data E w2).2 = log w2.
Proof.
  intros Hmiss Hcache Hnow.
  destruct (load_data_miss_stores E w Hmiss) as (df & shown & Hdf & _ & Hstored & Hclock).
  rewrite Hstored in Hcache. rewrite Hclock in Hnow. rewrite Hdf.
  by apply (load_data_hit E w2 (now w) df shown).
Qed.

Lemma load_data_answers_from_cache_for_an_hour_witness :
  (load_data Sample.externals
     (elapse 3599 (insert_entry Sample.externals Sample.entry
                     (load_data Sample.externals Sample.fresh).2).2)).1
  = (load_data Sample.externals Sample.fresh).1.
Proof.
  apply (load_data_answers_from_cache_for_an_hour Sample.externals Sample.fresh).
  - exact I.
  - reflexivity.
  - vm_compute. lia.
Defined.

(** X10.  A failed load is cached like any other: after a run whose [try]
    suite raised, every call made less than 3600 seconds later returns the
    empty frame without touching the store or writing to the log, even if
    the store has become readable again. *)
Theorem failed_load_is_served_for_an_hour (E : Externals) (w w' w2 : World) (e : exn) :
  cache_miss w →
  load_data_try E w = (Raise e, w') →
  cache w2 = cache (load_data E w).2 →
  (now w2 < now (load_data E w).2 + 3600)%nat →
  (load_data E w2).1 = Ok pd_DataFrame ∧
  log (load_data E w).2 = log w' ++ ["Data loading error: " +:+ exn_str e] ∧
  log (load_data E w2).2 = log w2.
Proof.
  intros Hmiss Hraise Hcache Hnow.
  destruct (load_data_miss_stores E w Hmiss) as (df & shown & _ & Hdf & Hstored & Hclock).
  rewrite Hstored in Hcache. rewrite Hclock in Hnow.
  assert (df = pd_DataFrame) as ->.
  { revert Hdf. unfold load_data_uncached, try_except.
    rewrite Hraise, (load_data_try_raises E w e w' Hraise). simpl. by intros [= <-]. }
  destruct (load_data_hit E w2 (now w) pd_DataFrame shown Hcache Hnow) as (-> & _ & ->).
  split; [done|]. split; [|done].
  rewrite (load_data_miss E w Hmiss). unfold load_data_uncached, try_except.
  rewrite Hraise, (load_data_try_raises E w e w' Hraise). done.
Qed.

Lemma failed_load_is_served_for_an_hour_witness :
  (load_data Sample.externals
     (mkWorld true (table (insert_entry Sample.externals Sample.entry Sample.fresh).2)
        (cache (load_data Sample.externals Sample.unreachable).2) 3599 [] [] [] ∅)).1
  = Ok pd_DataFrame.
Proof.
  refine (proj1 (failed_load_is_served_for_an_hour Sample.externals Sample.unreachable
                   (load_data_try Sample.externals Sample.unreachable).2 _
                   (SqliteError "unable to open database file") _ _ _ _)).
  - exact I.
  - reflexivity.
  - reflexivity.
  - vm_compute. lia.
Defined.



(** X12.  One stored row whose [Observation_Date] cannot be parsed hides
    the whole table: the load returns the empty frame, and the only trace
    is a line in the log. *)
Theorem load_data_unreadable_date_hides_table (E : Externals) (w : World) (t : Table)
    (r : gmap string value) (s : string) :
  cache_miss w →
  connectable w = true → table w = Some t →
  "Observation_Date" ∈ schema_names t →
  r ∈ t_rows t → r !! "Observation_Date" = Some (VStr s) → to_datetime E s = None →
  (load_data E w).1 = Ok pd_DataFrame ∧
  ui (load_data E w).2 = ui w ∧
  ∃ msg, log (load_data E w).2 = log w ++ ["Data loading error: " +:+ msg].
Proof.
  intros Hmiss Hconn Htable Hcol Hr Hcell Hparse.
  destruct (load_data_try_bad_timestamp E w t r s Hconn Htable Hcol Hr Hcell Hparse)
    as (msg & Htry).
  rewrite (load_data_miss E w Hmiss). unfold load_data_uncached, try_except.
  rewrite Htry. simpl. split; [done|]. split; [done|]. by exists msg.
Qed.

Lemma load_data_unreadable_date_hides_table_witness :
  (load_data Sample.externals
     (Fixtures.store_of [Fixtures.first_row; Fixtures.undated_row])).1 = Ok pd_DataFrame.
Proof.
  refine (proj1 (load_data_unreadable_date_hides_table Sample.externals
                   (Fixtures.store_of [Fixtures.first_row; Fixtures.undated_row])
                   (Fixtures.table_of [Fixtures.first_row; Fixtures.undated_row])
                   Fixtures.undated_row "yesterday" _ _ _ _ _ _ _)).
  - exact I.
  - reflexivity.
  - reflexivity.
  - apply (bool_decide_unpack _). vm_compute. exact I.
  - apply list_elem_of_further, list_elem_of_here.
  - reflexivity.
  - reflexivity.
Defined.

(** ** Creating and clearing the table *)

(** X13.  [create_database] never raises and never loses a row: a table
    that exists is left exactly as it is, a missing one is created empty
    with the columns of the schema; when the store cannot be opened the
    failure is shown and logged and nothing is created. *)
Theorem create_database_keeps_existing_table (w : World) :
  (create_database w).1 = Ok () ∧
  (∀ t, table w = Some t → table (create_database w).2 = Some t) ∧
  (connectable w = true → table w = None →
   table (create_database w).2 = Some created_table ∧
   ui (create_database w).2 = ui w ++ [st_success_ev "Database initialized successfully!"]) ∧
  (connectable w = false →
   table (create_database w).2 = table w ∧
   ui (create_database w).2
     = ui w ++ [st_error_ev "An unexpected error occurred. Please check the logs.";
                st_error_ev "Database creation error: unable to open database file"] ∧
   log (create_database w).2
     = log w ++ ["Database connection error: unable to open database file";
                 "Database creation error: unable to open database file"]).
Proof.
  unfold create_database, monitor_performance, get_db_connection, execute_create_table.
  unfold try_except, mbind, M_bind, get_world, lift, modify, raise, mret, M_ret,
    logger_error, st_error, st_success, modify.
  destruct (connectable w) eqn:Hconn; simpl.
  - destruct (table w) as [t|] eqn:Htable; simpl.
    + split; [done|]. split; [by intros ? [= <-]|]. by split.
    + split; [done|]. split; [done|]. by split.
  - split; [done|]. split; [done|]. split; [done|]. intros _.
    by rewrite <- !(assoc_L (++)).
Qed.

Lemma create_database_keeps_existing_table_witness :
  table (create_database (Fixtures.store_of [Fixtures.first_row])).2
  = Some (Fixtures.table_of [Fixtures.first_row]).
Proof.
  apply (proj1 (proj2 (create_database_keeps_existing_table
                         (Fixtures.store_of [Fixtures.first_row])))).
  reflexivity.
Defined.

Section ClearFacts.
Context (E : Externals).

Lemma clear_database_ok w t :
  connectable w = true → table w = Some t →
  clear_database w
  = (Ok true,
     add_metric "clear_database"
       (set_table (Some (mkTable (t_schema t) (t_autoinc t) (Z.max (t_seq t) (max_id t)) []))
                  w)).
Proof.
  intros Hconn Htable.
  unfold clear_database, monitor_performance, get_db_connection, execute_delete.
  unfold try_except, mbind, M_bind, get_world, lift, modify, raise, mret, M_ret.
  rewrite Hconn. simpl. by rewrite Htable.
Qed.

End ClearFacts.

(** X14.  [clear_database] on a readable store removes every row and
    keeps the table: a load the cache does not answer then returns a frame
    with the columns of the schema and no rows. *)
Theorem clear_database_then_load (E : Externals) (w : World) (t : Table) :
  connectable w = true → table w = Some t → NoDup (schema_names t) →
  cache_miss w →
  (clear_database w).1 = Ok true ∧
  ∃ df, (load_data E (clear_database w).2).1 = Ok df ∧
        column_names df = schema_names t ∧ rows df = [].
Proof.
  intros Hconn Htable Hnd Hmiss. rewrite (clear_database_ok w t Hconn Htable). simpl.
  split; [done|].
  set (t0 := mkTable (t_schema t) (t_autoinc t) (Z.max (t_seq t) (max_id t)) []).
  set (w0 := add_metric "clear_database" (set_table (Some t0) w)).
  destruct (load_data_try_rows E w0 t0) as (df & Hdf & Hnames & Hlen & _); try done.
  { intros r Hr. by apply elem_of_nil in Hr. }
  exists df. rewrite (load_data_miss E w0) by done. unfold load_data_uncached, try_except.
  rewrite Hdf. simpl. split; [done|]. split; [done|].
  by destruct (rows df).
Qed.

Lemma clear_database_then_load_witness :
  (clear_database (Fixtures.store_of [Fixtures.first_row])).1 = Ok true ∧
  ∃ df, (load_data Sample.externals
           (clear_database (Fixtures.store_of [Fixtures.first_row])).2).1 = Ok df ∧
        column_names df = schema_names (Fixtures.table_of [Fixtures.first_row]) ∧
        rows df = [].
Proof.
  apply (clear_database_then_load Sample.externals (Fixtures.store_of [Fixtures.first_row])
           (Fixtures.table_of [Fixtures.first_row])).
  - reflexivity.
  - reflexivity.
  - apply (bool_decide_unpack _). vm_compute. exact I.
  - exact I.
Defined.

(** X15.  When the store cannot be opened or holds no table,
    [clear_database] logs the sqlite error twice (as a connection error
    and as a clear error), shows the generic message, and raises the error
    again; the store is as it was and no timing is filed. *)
Theorem clear_database_raises_again (w : World) :
  connectable w = false ∨ table w = None →
  ∃ msg,
    (clear_database w).1 = Raise (SqliteError msg) ∧
    log (clear_database w).2
      = log w ++ ["Database connection error: " +:+ msg; "Database clear error: " +:+ msg] ∧
    ui (clear_database w).2
      = ui w ++ [st_error_ev "An unexpected error occurred. Please check the logs."] ∧
    table (clear_database w).2 = table w ∧
    performance_metrics (clear_database w).2 = performance_metrics w.
Proof.
  intros Hbad.
  unfold clear_database, monitor_performance, get_db_connection, execute_delete.
  unfold try_except, mbind, M_bind, get_world, lift, modify, raise, mret, M_ret,
    logger_error, st_error, modify.
  destruct (connectable w) eqn:Hconn; simpl.
  - destruct Hbad as [?|Htable]; [done|]. rewrite Htable. simpl.
    eexists. split; [done|]. by rewrite <- !(assoc_L (++)).
  - eexists. split; [done|]. by rewrite <- !(assoc_L (++)).
Qed.

Lemma clear_database_raises_again_witness :
  ∃ msg,
    (clear_database Sample.unreachable).1 = Raise (SqliteError msg) ∧
    log (clear_database Sample.unreachable).2
      = log Sample.unreachable ++
        ["Database connection error: " +:+ msg; "Database clear error: " +:+ msg] ∧
    ui (clear_database Sample.unreachable).2
      = ui Sample.unreachable ++
        [st_error_ev "An unexpected error occurred. Please check the logs."] ∧
    table (clear_database Sample.unreachable).2 = table Sample.unreachable ∧
    performance_metrics (clear_database Sample.unreachable).2
      = performance_metrics Sample.unreachable.
Proof.
  apply (clear_database_raises_again Sample.unreachable). left. reflexivity.
Defined.



(** ** The entry form *)

Section FormFacts.
Context (E : Externals).








End FormFacts.



(** ** Survival analyses *)

Section CoxFacts.
Context (E : Externals).

Lemma cell_restrict (r : gmap string value) (cols : list string) c :
  c ∈ cols → cell (filter (λ kv : string * value, kv.1 ∈ cols) r) c = cell r c.
Proof.
  intros Hc. unfold cell. rewrite map_lookup_filter.
  destruct (r !! c) as [v|]; simpl; [|done].
  by rewrite option_guard_True.
Qed.

Lemma df_getitem_cols_Ok_inv df cols view :
  df_getitem_cols df cols = Ok view →
  column_names view = cols ∧
  rows view = (λ r : gmap string value, filter (λ kv, kv.1 ∈ cols) r) <$> rows df.
Proof.
  unfold df_getitem_cols. intros H. bind_inv_as H cs Hcs. injection H as <-.
  split; [|done]. unfold column_names. simpl.
  revert cs Hcs. induction cols as [|c cols IH]; intros cs Hcs.
  - by injection Hcs as <-.
  - csimpl in Hcs. bind_inv_as Hcs cd Hcd. bind_inv_as Hcs cs' Hcs'. injection Hcs as <-.
    csimpl. rewrite (IH cs' Hcs'). destruct (column_dtype df c); by simplify_eq.
Qed.


Lemma df_getitem_cols_Raise_inv df cols e :
  df_getitem_cols df cols = Raise e →
  ∃ c, c ∈ cols ∧ (c ∉ column_names df) ∧ e = KeyError c.
Proof.
  unfold df_getitem_cols. intros H.
  destruct (mapR _ cols) as [cs|e'] eqn:Hcs; [done|]. injection H as ->.
  apply mapR_Raise_inv in Hcs as (c & Hc & Hraise). exists c. split; [done|].
  destruct (column_dtype df c) as [d|] eqn:Hd; [done|]. injection Hraise as <-. split; [|done].
  intros Hin. destruct (column_dtype_Some df c Hin) as (d & Hd' & _). congruence.
Qed.

Lemma dropna_rows_complete selected r c :
  r ∈ rows (dropna selected) → c ∈ column_names selected → cell r c ≠ VNone.
Proof.
  unfold dropna. simpl. intros Hr Hc.
  apply list_elem_of_In, filter_In in Hr as [_ Hr]. unfold complete_in in Hr.
  rewrite forallb_forall in Hr. specialize (Hr c).
  rewrite <- list_elem_of_In in Hr. specialize (Hr Hc).
  apply negb_true_iff in Hr. by apply bool_decide_eq_false_1 in Hr.
Qed.

(** What [display_cox_analysis] does, by the case it is in. *)
Lemma display_cox_analysis_unfold df w :
  display_cox_analysis E df w =
  let filed := add_metric "display_cox_analysis" in
  if forallb (has_column df) ["Time_To_Crisis"; "Crisis_Event"] then
    match df_getitem_cols df (["Time_To_Crisis"; "Crisis_Event"] ++ covariates) with
    | Ok selected =>
        match rows (dropna selected) with
        | [] => (Ok (), filed (add_ui (st_warning_ev
                   "Insufficient data for Cox analysis after handling missing values.") w))
        | _ =>
            match cph_fit_raises E (dropna selected) with
            | None =>
                (Ok (), filed (add_ui (st_pyplot_ev "Work_Stress_Level")
                                 (add_ui (st_write_ev "None")
                                    (add_ui (st_subheader_ev "Cox Proportional Hazards Analysis")
                                       (add_fit (CoxPHFitter_fit (dropna selected)) w)))))
            | Some e =>
                if is_Exception e then
                  (Ok (), filed (add_ui (st_error_ev
                             "Error performing Cox analysis. Please check the data format.")
                             (add_log ("Error in Cox analysis: " +:+ exn_str e)
                                (add_fit (CoxPHFitter_fit (dropna selected)) w))))
                else (Raise e, add_fit (CoxPHFitter_fit (dropna selected)) w)
            end
        end
    | Raise e =>
        (Ok (), filed (add_ui (st_error_ev
                   "Error performing Cox analysis. Please check the data format.")
                   (add_log ("Error in Cox analysis: " +:+ exn_str e) w)))
    end
  else
    (Ok (), filed (add_ui (st_warning_ev
               "Required columns for Cox analysis are not available.") w)).
Proof.
  unfold display_cox_analysis, monitor_performance, try_except, mbind, M_bind, lift.
  remember dropna as drop_incomplete eqn:Hdrop.
  destruct (forallb (has_column df) _); simpl; [|done].
  destruct (df_getitem_cols df _) as [selected|e] eqn:Hsel; simpl.
  - destruct (rows (drop_incomplete selected)) as [|r rs] eqn:Hrows; simpl; [done|].
    unfold cph_fit, mbind, M_bind. simpl.
    destruct (cph_fit_raises E _); simpl; [destruct (is_Exception e)|]; done.
  - apply df_getitem_cols_Raise_inv in Hsel as (c & _ & _ & ->). done.
Qed.

End CoxFacts.

(** X18.  As long as the fitter raises ordinary exceptions only,
    [display_cox_analysis] never raises, and what it hands to the fitter
    has at least one row and no missing value in the duration, the event
    or any of the four covariates. *)
Theorem cox_analysis_fits_complete_rows_only (E : Externals) (df : DataFrame) (w : World) :
  (∀ data e, cph_fit_raises E data = Some e → is_Exception e = true) →
  (display_cox_analysis E df w).1 = Ok () ∧
  ∀ data, CoxPHFitter_fit data ∈ fits (display_cox_analysis E df w).2 →
          CoxPHFitter_fit data ∈ fits w ∨
          (rows data ≠ [] ∧
           ∀ r c, r ∈ rows data → c ∈ ["Time_To_Crisis"; "Crisis_Event"] ++ covariates →
                  cell r c ≠ VNone).
Proof.
  intros Hlib. rewrite display_cox_analysis_unfold. cbv zeta.
  destruct (forallb _ _); [|split; [done|by left]].
  destruct (df_getitem_cols df _) as [selected|e] eqn:Hsel; [|split; [done|by left]].
  apply df_getitem_cols_Ok_inv in Hsel as [Hnames _].
  destruct (rows (dropna selected)) as [|r0 rs] eqn:Hrows; [split; [done|by left]|].
  assert (∀ data, CoxPHFitter_fit data ∈ fits w ++ [CoxPHFitter_fit (dropna selected)] →
            CoxPHFitter_fit data ∈ fits w ∨
            (rows data ≠ [] ∧
             ∀ r c, r ∈ rows data → c ∈ ["Time_To_Crisis"; "Crisis_Event"] ++ covariates →
                    cell r c ≠ VNone)) as Hfit.
  { intros data [?|Hin%list_elem_of_singleton]%elem_of_app; [by left|]. right.
    injection Hin as ->. split; [by rewrite Hrows|].
    intros r c Hr Hc. apply (dropna_rows_complete selected); [done|by rewrite Hnames]. }
  destruct (cph_fit_raises E _) as [e|] eqn:He; [|by split].
  rewrite (Hlib _ _ He). by split.
Qed.

Lemma cox_analysis_fits_complete_rows_only_witness :
  (display_cox_analysis Sample.externals Sample.observations Sample.fresh).1 = Ok ().
Proof.
  refine (proj1 (cox_analysis_fits_complete_rows_only Sample.externals Sample.observations
                   Sample.fresh _)).
  intros data e. simpl. destruct (rows data); [|done]. by intros [= <-].
Defined.



(** X20.  When every row lacks a value in one of the six columns the
    regression reads, as every row saved through the entry form lacks its
    [Burnout_Level], [display_cox_analysis] fits nothing and reports
    insufficient data. *)
Theorem cox_analysis_insufficient_data (E : Externals) (df : DataFrame) (w : World) :
  (∀ c, c ∈ ["Time_To_Crisis"; "Crisis_Event"] ++ covariates → c ∈ column_names df) →
  (∀ r, r ∈ rows df →
        ∃ c, c ∈ ["Time_To_Crisis"; "Crisis_Event"] ++ covariates ∧ cell r c = VNone) →
  display_cox_analysis E df w
  = (Ok (),
     add_metric "display_cox_analysis"
       (add_ui (st_warning_ev
                  "Insufficient data for Cox analysis after handling missing values.") w)).
Proof.
  intros Hcols Hmissing. rewrite display_cox_analysis_unfold. cbv zeta.
  assert (forallb (has_column df) ["Time_To_Crisis"; "Crisis_Event"] = true) as ->.
  { unfold has_column. simpl. rewrite !bool_decide_eq_true_2; [done| |].
    - apply Hcols. apply list_elem_of_further, list_elem_of_here.
    - apply Hcols. apply list_elem_of_here. }
  remember (["Time_To_Crisis"; "Crisis_Event"] ++ covariates) as cols eqn:Hdef.
  destruct (df_getitem_cols_present df _ Hcols) as (selected & Hsel & _ & Hnames).
  rewrite Hsel. apply df_getitem_cols_Ok_inv in Hsel as [_ Hrows].
  assert (rows (dropna selected) = []) as ->; [|done].
  unfold dropna. simpl. rewrite Hnames, Hrows. clear Hdef Hrows Hnames.
  induction (rows df) as [|r rs IH]; [done|]. csimpl.
  destruct (Hmissing r) as (c & Hc & Hnone); [apply list_elem_of_here|].
  assert (complete_in cols (filter (λ kv : string * value, kv.1 ∈ cols) r) = false) as ->.
  { unfold complete_in. apply not_true_iff_false. rewrite forallb_forall.
    intros Hall. specialize (Hall c). rewrite <- list_elem_of_In in Hall.
    specialize (Hall Hc). rewrite cell_restrict, Hnone in Hall by done. done. }
  apply IH. intros r' Hr'. apply Hmissing. by apply list_elem_of_further.
Qed.

Lemma cox_analysis_insufficient_data_witness :
  display_cox_analysis Sample.externals Fixtures.entered_through_form Sample.fresh
  = (Ok (),
     add_metric "display_cox_analysis"
       (add_ui (st_warning_ev
                  "Insufficient data for Cox analysis after handling missing values.")
               Sample.fresh)).
Proof.
  apply (cox_analysis_insufficient_data Sample.externals Fixtures.entered_through_form
           Sample.fresh).
  - apply Forall_forall. apply (bool_decide_unpack _). vm_compute. exact I.
  - intros r ->%list_elem_of_singleton. exists "Burnout_Level". split; [|reflexivity].
    apply (bool_decide_unpack _). vm_compute. exact I.
Defined.

(** ** The dashboard's choice of analysis *)

(** X21.  A choice that is none of the three labels
    [display_risk_analysis] compares it with runs no analysis and shows
    nothing, not even a message; the radio group of the dashboard offers
    such a choice. *)
Theorem risk_analysis_ignores_unhandled_choice (E : Externals)
    (display_ml_analysis : DataFrame → M unit) (df : DataFrame) (analysis_choice : string)
    (w : World) :
  analysis_choice ∉ ["Kaplan–Meier Estimator"; "Cox Proportional Hazards Model";
                     "Machine Learning (XGBoost)"] →
  display_risk_analysis_try E display_ml_analysis df analysis_choice w = (Ok (), w).
Proof.
  intros Hnot. unfold display_risk_analysis_try, try_except.
  rewrite !bool_decide_eq_false_2; [done| | |].
  all: intros ->; apply Hnot.
  - do 2 apply list_elem_of_further. apply list_elem_of_here.
  - apply list_elem_of_further, list_elem_of_here.
  - apply list_elem_of_here.
Qed.

Lemma risk_analysis_ignores_unhandled_choice_witness :
  "Bayesian Spatio-Temporal Model" ∈ analysis_choices ∧
  display_risk_analysis_try Sample.externals (λ _, mret ()) Sample.staff
    "Bayesian Spatio-Temporal Model" Sample.fresh
  = (Ok (), Sample.fresh).
Proof.
  split.
  - apply (bool_decide_unpack _). vm_compute. exact I.
  - apply (risk_analysis_ignores_unhandled_choice Sample.externals (λ _, mret ()) Sample.staff
             "Bayesian Spatio-Temporal Model" Sample.fresh).
    apply (bool_decide_eq_false_1 _). vm_compute. reflexivity.
Defined.

(** X22.  When the Kaplan-Meier fitter raises on the two columns it is
    handed, for instance on a missing value among them,
    [display_risk_analysis] catches the exception: it is logged, the
    data-format error is shown, no curve is drawn and no timing is filed
    for [display_kaplan_meier_analysis]. *)
Theorem risk_analysis_reports_failed_estimate (E : Externals)
    (display_ml_analysis : DataFrame → M unit) (df : DataFrame) (w : World) (e : exn) :
  "Time_To_Crisis" ∈ column_names df → "Crisis_Event" ∈ column_names df →
  kmf_fit_raises E ((λ r, cell r "Time_To_Crisis") <$> rows df)
                   ((λ r, cell r "Crisis_Event") <$> rows df) = Some e →
  is_Exception e = true →
  display_risk_analysis_try E display_ml_analysis df "Kaplan–Meier Estimator" w
  = (Ok (),
     add_ui (st_error_ev "Error performing risk analysis. Please check the data format.")
       (add_log ("Error in risk analysis: " +:+ exn_str e)
          (add_fit (KaplanMeierFitter_fit ((λ r, cell r "Time_To_Crisis") <$> rows df)
                                          ((λ r, cell r "Crisis_Event") <$> rows df)) w))).
Proof.
  intros Ht Hc Hraise Hexn.
  destruct (column_dtype_Some df _ Ht) as (dt & Hdt & _).
  destruct (column_dtype_Some df _ Hc) as (dc & Hdc & _).
  unfold display_risk_analysis_try, try_except.
  rewrite bool_decide_eq_true_2 by done.
  unfold display_kaplan_meier_analysis, has_column.
  rewrite !bool_decide_eq_true_2 by done. simpl.
  unfold monitor_performance, mbind, M_bind, lift, df_getitem, kmf_fit.
  rewrite Hdt, Hdc. simpl. rewrite Hraise. simpl. by rewrite Hexn.
Qed.

Lemma risk_analysis_reports_failed_estimate_witness :
  ∃ e,
    display_risk_analysis_try Sample.externals (λ _, mret ()) Sample.observations
      "Kaplan–Meier Estimator" Sample.fresh
    = (Ok (),
       add_ui (st_error_ev "Error performing risk analysis. Please check the data format.")
         (add_log ("Error in risk analysis: " +:+ exn_str e)
            (add_fit (KaplanMeierFitter_fit
                        ((λ r, cell r "Time_To_Crisis") <$> rows Sample.observations)
                        ((λ r, cell r "Crisis_Event") <$> rows Sample.observations))
                     Sample.fresh))).
Proof.
  eexists.
  apply (risk_analysis_reports_failed_estimate Sample.externals (λ _, mret ())
           Sample.observations Sample.fresh).
  - apply (bool_decide_unpack _). vm_compute. exact I.
  - apply (bool_decide_unpack _). vm_compute. exact I.
  - vm_compute. reflexivity.
  - reflexivity.
Defined.

(** ** Filtering *)

Lemma filter_all {A} (P : A → bool) (l : list A) :
  (∀ x, x ∈ l → P x = true) → List.filter P l = l.
Proof.
  induction l as [|x l IH]; intros H; [done|]. simpl.
  rewrite (H x) by apply list_elem_of_here. f_equal. apply IH.
  intros y Hy. by apply H, list_elem_of_further.
Qed.

Lemma filter_sublist {A} (P : A → bool) (l1 l2 : list A) :
  l1 `sublist_of` l2 → List.filter P l1 `sublist_of` List.filter P l2.
Proof.
  induction 1 as [|x l1 l2 _ IH|x l1 l2 _ IH]; simpl.
  - constructor.
  - destruct (P x); [by constructor|done].
  - destruct (P x); [by constructor|done].
Qed.

Lemma elem_of_filter_bool {A} (P : A → bool) (l : list A) x :
  x ∈ List.filter P l ↔ x ∈ l ∧ P x = true.
Proof. by rewrite list_elem_of_In, filter_In, <- list_elem_of_In. Qed.

Lemma mapR_Ok_elem {A B} (f : A → result B) l ys x :
  mapR f l = Ok ys → x ∈ l → is_Ok (f x) = true.
Proof.
  intros Hmap [i Hi]%list_elem_of_lookup_1.
  destruct (mapR_Ok_lookup f l ys i x Hmap Hi) as (y & _ & ->). done.
Qed.

Section FilterStages.
Context (E : Externals).

Lemma frame_eta df : mkDataFrame (columns df) (rows df) = df.
Proof. by destruct df. Qed.

Lemma object_columns_same df df' :
  columns df' = columns df → object_columns df' = object_columns df.
Proof. unfold object_columns. by intros ->. Qed.

(** The text stage on a frame with the columns of one on which it
    returned. *)
Lemma text_stage_mono df df' term a :
  (if truthy (VStr term) then text_search E df term else Ok df) = Ok a →
  columns df' = columns df →
  (if truthy (VStr term) then text_search E df' term else Ok df')
  = Ok (mkDataFrame (columns df') (List.filter (text_passes E df term) (rows df'))).
Proof.
  intros Ha Hcols. unfold text_passes.
  destruct (truthy (VStr term)).
  - destruct (re_compile E term) as [matcher|e] eqn:Hre.
    + rewrite (text_search_compiled E df' term matcher Hre).
      rewrite (object_columns_same df df' Hcols). do 2 f_equal.
      apply filter_ext. intros r. f_equal. unfold term_hits. by rewrite Hre.
    + unfold text_search in *. rewrite (object_columns_same df df' Hcols).
      destruct (object_columns df) as [|c cs] eqn:Hobj.
      * simpl. unfold df_getitem_mask. do 2 f_equal.
        rewrite (replicate_fmap_const (rows df') false), mask_rows_fmap. done.
      * exfalso. cbn [foldR] in Ha.
        assert (c ∈ column_names df) as Hc.
        { apply object_columns_are_columns. rewrite Hobj. apply list_elem_of_here. }
        destruct (column_dtype_Some df c Hc) as (d & Hd & _).
        unfold df_getitem, astype_str_contains in Ha. rewrite Hd, Hre in Ha. done.
  - rewrite filter_all by done. by rewrite frame_eta.
Qed.

Lemma age_stage_Ok_comparable df lo hi b :
  (a ← df_getitem df "Age";
   m1 ← series_ge a lo;
   a' ← df_getitem df "Age";
   m2 ← series_le a' hi;
   Ok (df_getitem_mask df (mask_and m1 m2))) = Ok b →
  age_comparable df.
Proof.
  intros H. bind_inv_as H s Hs. bind_inv_as H m1 Hm1. clear H.
  unfold df_getitem, age_comparable in *.
  destruct (column_dtype df "Age") as [d|]; [|done]. injection Hs as <-.
  unfold series_ge, series_cmp in Hm1. simpl in Hm1.
  destruct d; try done.
  apply Forall_forall. intros r Hr.
  assert (cell r "Age" ∈ (λ r, cell r "Age") <$> rows df) as Hin.
  { apply list_elem_of_fmap. eauto. }
  pose proof (mapR_Ok_elem _ _ _ _ Hm1 Hin) as Hok.
  by destruct (cell r "Age").
Qed.

Lemma gender_stage_Ok_column df genders b :
  (s ← df_getitem df "Sex"; Ok (df_getitem_mask df (isin s genders))) = Ok b →
  "Sex" ∈ column_names df.
Proof.
  intros H. destruct (decide ("Sex" ∈ column_names df)) as [|Hno]; [done|].
  by rewrite (df_getitem_absent df "Sex" Hno) in H.
Qed.

(** The engine on a selection of rows of a frame on which it returned:
    it returns again, with the rows that pass the three tests. *)
Lemma apply_filters_body_mono df df' term fv out :
  apply_filters_body E df term fv = Ok out →
  sub_frame df' df →
  apply_filters_body E df' term fv
  = Ok (mkDataFrame (columns df')
          (List.filter (gender_passes fv)
             (List.filter (age_passes fv)
                (List.filter (text_passes E df term) (rows df'))))).
Proof.
  unfold apply_filters_body, df_copy. intros H [Hcols Hrows].
  bind_inv_as H a Ha. bind_inv_as H b Hb. bind_inv_as H c Hc. clear H.
  pose proof (text_stage_mono df df term a Ha eq_refl) as Ha0.
  rewrite Ha in Ha0. injection Ha0 as ->.
  rewrite (text_stage_mono df df' term _ Ha Hcols). cbn [mbind result_bind].
  set (a := mkDataFrame (columns df) (List.filter (text_passes E df term) (rows df))) in *.
  set (a' := mkDataFrame (columns df') (List.filter (text_passes E df term) (rows df'))).
  assert (sub_frame a' a) as Hsub_a by (split; [done|by apply filter_sublist]).
  assert (∃ b', match age_range fv with
                | Some (lo, hi) =>
                    a0 ← df_getitem a' "Age";
                    m1 ← series_ge a0 lo;
                    a1 ← df_getitem a' "Age";
                    m2 ← series_le a1 hi;
                    Ok (df_getitem_mask a' (mask_and m1 m2))
                | None => Ok a'
                end = Ok b' ∧
                b' = mkDataFrame (columns df') (List.filter (age_passes fv) (rows a')) ∧
                columns b = columns df) as (b' & -> & -> & Hbcols).
  { unfold age_passes. destruct (age_range fv) as [[lo hi]|].
    - pose proof (age_stage_Ok_comparable a lo hi b Hb) as Hcmp.
      rewrite (age_stage a lo hi Hcmp) in Hb. injection Hb as <-.
      rewrite (age_stage a' lo hi (age_comparable_sub a' a Hsub_a Hcmp)).
      eexists. split; [done|]. by split.
    - injection Hb as <-. exists a'. split; [done|]. split; [|done].
      by rewrite (filter_all (λ _, true)) by done. }
  cbn [mbind result_bind]. unfold gender_passes.
  destruct (selected_genders fv) as [genders|].
  - rewrite gender_stage; [done|].
    unfold column_names. simpl. rewrite Hcols, <- Hbcols.
    by apply (gender_stage_Ok_column b genders c).
  - by rewrite (filter_all (λ _, true)) by done.
Qed.

Lemma apply_filters_body_Ok_inv df term fv out :
  apply_filters_body E df term fv = Ok out →
  out = mkDataFrame (columns df)
          (List.filter (gender_passes fv)
             (List.filter (age_passes fv)
                (List.filter (text_passes E df term) (rows df)))).
Proof.
  intros H. pose proof (apply_filters_body_mono df df term fv out H (sub_frame_refl df)) as H'.
  rewrite H in H'. by injection H'.
Qed.

Lemma apply_filters_body_rows df term fv out r :
  apply_filters_body E df term fv = Ok out →
  r ∈ rows out ↔
  r ∈ rows df ∧ text_passes E df term r = true ∧
  age_passes fv r = true ∧ gender_passes fv r = true.
Proof.
  intros ->%apply_filters_body_Ok_inv. simpl.
  rewrite !elem_of_filter_bool. tauto.
Qed.




End FilterStages.

Lemma apply_filters_Ok_inv (E : Externals) df term fv w out w' :
  apply_filters E df term fv w = (Ok out, w') →
  apply_filters_body E df term fv = Ok out.
Proof.
  intros (w0 & H & _)%monitor_performance_inv. unfold lift in H. by injection H.
Qed.

Lemma apply_filters_of_body (E : Externals) df term fv w :
  (apply_filters E df term fv w).1 = apply_filters_body E df term fv.
Proof.
  unfold apply_filters, monitor_performance, mbind, M_bind, lift.
  by destruct (apply_filters_body E df term fv).
Qed.

(** X23.  Filtering is idempotent: applying the same term and criteria to
    what [apply_filters] returned returns it unchanged. *)
Theorem apply_filters_idempotent (E : Externals) (df : DataFrame) (term : string)
    (fv : filter_vars) (w w' w'' : World) (out : DataFrame) :
  apply_filters E df term fv w = (Ok out, w') →
  (apply_filters E out term fv w'').1 = Ok out.
Proof.
  intros H%apply_filters_Ok_inv. rewrite apply_filters_of_body.
  rewrite (apply_filters_body_mono E df out term fv out H)
    by by apply (apply_filters_body_sub E df term fv).
  f_equal. pose proof (apply_filters_body_Ok_inv E df term fv out H) as Hout.
  assert (∀ r, r ∈ rows out →
               text_passes E df term r = true ∧ age_passes fv r = true ∧
               gender_passes fv r = true) as Hall.
  { intros r Hr. by apply (apply_filters_body_rows E df term fv out r H) in Hr as (_ & ?). }
  rewrite (filter_all (text_passes E df term)) by (intros r Hr; by apply Hall).
  rewrite (filter_all (age_passes fv)) by (intros r Hr; by apply Hall).
  rewrite (filter_all (gender_passes fv)) by (intros r Hr; by apply Hall).
  by destruct out.
Qed.

Lemma apply_filters_idempotent_witness :
  ∃ out w',
    apply_filters Sample.externals Sample.staff "nurse" Sample.women_in_their_thirties
      Sample.fresh = (Ok out, w') ∧
    (apply_filters Sample.externals out "nurse" Sample.women_in_their_thirties w').1 = Ok out.
Proof.
  eexists _, _. split; [reflexivity|].
  eapply (apply_filters_idempotent Sample.externals Sample.staff "nurse"
            Sample.women_in_their_thirties Sample.fresh).
  reflexivity.
Defined.



(** X25.  The search does not depend on the letter case of the term: two
    terms without regular-expression operators that differ in case only
    give the same outcome on every table and with every criterion. *)
Theorem apply_filters_ignores_letter_case (E : Externals) (df : DataFrame)
    (term1 term2 : string) (fv : filter_vars) (w : World) :
  plain term1 → plain term2 →
  lower (chars term1) = lower (chars term2) →
  apply_filters E df term1 fv w = apply_filters E df term2 fv w.
Proof.
  intros H1 H2 Hlower.
  assert ((if truthy (VStr term1) then text_search E df term1 else Ok df)
          = (if truthy (VStr term2) then text_search E df term2 else Ok df)) as Htext.
  { destruct term1 as [|c1 t1], term2 as [|c2 t2]; try done.
    change (truthy (VStr (String c1 t1))) with true.
    change (truthy (VStr (String c2 t2))) with true. cbv iota.
    rewrite (text_search_compiled E df _ _ (re_compile_plain E _ H1)).
    rewrite (text_search_compiled E df _ _ (re_compile_plain E _ H2)).
    by rewrite Hlower. }
  unfold apply_filters, apply_filters_body, df_copy. by rewrite Htext.
Qed.

Lemma apply_filters_ignores_letter_case_witness :
  apply_filters Sample.externals Sample.staff "Nurse" Sample.adults_only Sample.fresh
  = apply_filters Sample.externals Sample.staff "nURSE" Sample.adults_only Sample.fresh.
Proof.
  apply (apply_filters_ignores_letter_case Sample.externals Sample.staff "Nurse" "nURSE").
  - apply (bool_decide_unpack _). vm_compute. exact I.
  - apply (bool_decide_unpack _). vm_compute. exact I.
  - reflexivity.
Defined.

(** ** Showing the filtered view *)

Lemma errors_app l1 l2 : errors (l1 ++ l2) = errors l1 ++ errors l2.
Proof. apply omap_app. Qed.

Lemma export_data_quiet u df sel w :
  (export_data u df sel w).1 = Ok () ∧
  log (export_data u df sel w).2 = log w ∧
  errors (ui (export_data u df sel w).2) = errors (ui w) ∧
  (export_clicked u = false →
   downloads (ui (export_data u df sel w).2) = downloads (ui w)).
Proof.
  unfold export_data. rewrite globals_export_data.
  unfold export_data_2, monitor_performance, try_except, mbind, M_bind.
  destruct (export_clicked u); simpl.
  - destruct (bool_decide _); simpl; rewrite !errors_app; simpl; by rewrite !app_nil_r.
  - rewrite errors_app, downloads_app. simpl. by rewrite !app_nil_r.
Qed.



(** X27.  No download is offered unless the export button is pressed, a
    column is selected and the filtered view has a row. *)
Theorem no_export_without_click_columns_and_rows (E : Externals) (u : widgets)
    (filtered_df df : DataFrame) (w : World) :
  export_clicked u = false ∨ select_columns_widget u filtered_df = [] ∨ rows filtered_df = [] →
  downloads (ui (display_filtered_results E u filtered_df df w).2) = downloads (ui w).
Proof.
  intros Hno.
  destruct (df_getitem_cols_present filtered_df (select_columns_widget u filtered_df))
    as (view & Hview & Hlen & _);
    [intros c; apply select_columns_widget_columns|].
  unfold display_filtered_results. rewrite globals_display_filtered_results.
  unfold display_filtered_results_2.
  destruct (select_columns_widget u filtered_df) as [|c sel] eqn:Hs.
  { unfold monitor_performance, try_except, mbind, M_bind, lift. simpl.
    rewrite !downloads_app. simpl. by rewrite !app_nil_r. }
  unfold monitor_performance, try_except, mbind, M_bind, lift. simpl.
  rewrite Hview.
  destruct (0 <? _)%nat eqn:Hrows; simpl.
  - destruct Hno as [Hclick|[?|Hempty]]; [|done|].
    + match goal with
      | |- context [export_data u ?d ?s ?w1] =>
          destruct (export_data_quiet u d s w1) as (Hok & _ & _ & Hdl);
          destruct (export_data u d s w1) as [r w2]
      end.
      simpl in Hok, Hdl. subst r. simpl. rewrite (Hdl Hclick).
      rewrite !downloads_app. simpl. by rewrite !app_nil_r.
    + apply Nat.ltb_lt in Hrows. rewrite stringify_rows_length, Hlen, Hempty in Hrows.
      simpl in Hrows. lia.
  - rewrite !downloads_app. simpl. by rewrite !app_nil_r.
Qed.

Lemma no_export_without_click_columns_and_rows_witness :
  downloads (ui (display_filtered_results Sample.externals Sample.clicks
                   (mkDataFrame Sample.staff_columns []) Sample.staff Sample.fresh).2)
  = downloads (ui Sample.fresh).
Proof.
  apply (no_export_without_click_columns_and_rows Sample.externals Sample.clicks
           (mkDataFrame Sample.staff_columns []) Sample.staff Sample.fresh).
  right. right. reflexivity.
Defined.


(** ** The recent-entries grid and the bulk replace *)



(** ** The conversions of the loader *)

(** X30.  The numeric conversion of [load_data] changes nothing: the
    columns the query typed as int64 or float64 hold integers and NULLs
    only, so coercing them to numbers returns the frame as it is after the
    conversion of the dates. *)
Theorem numeric_conversion_changes_nothing (E : Externals) (t : Table) (df : DataFrame) :
  NoDup (schema_names t) →
  convert_timestamps E (read_frame t) = Ok df →
  convert_numeric df = Ok df.
Proof.
  intros Hnd Hdates.
  destruct (convert_timestamps_rows E (read_frame t))
    as (df' & Hdf & Hnames & Hlen & Hnum & Hrows).
  { by rewrite read_frame_names. }
  { intros r Hr Hod. revert Hdates. unfold convert_timestamps, has_column.
    rewrite bool_decide_eq_true_2 by done.
    intros H. bind_inv_as H s Hs. bind_inv_as H vs Hvs. clear H.
    unfold df_getitem in Hs. destruct (column_dtype _ _); [|done]. injection Hs as <-.
    apply (mapR_Ok_elem _ _ _ _ Hvs). simpl. apply list_elem_of_fmap. eauto. }
  rewrite Hdates in Hdf. injection Hdf as <-.
  rewrite read_frame_names in Hnames.
  apply convert_numeric_same.
  - by rewrite Hnames.
  - intros r c Hr Hc. rewrite Hnames in Hc.
    apply list_elem_of_lookup in Hr as [i Hi].
    assert (is_Some (rows (read_frame t) !! i)) as [r0 Hr0].
    { apply lookup_lt_is_Some. rewrite <- Hlen. by eapply lookup_lt_Some. }
    destruct (Hrows i r0 Hr0) as (r' & Hr' & Hkeys & _).
    assert (r' = r) as -> by congruence.
    apply Hkeys. apply (read_frame_keys t); [|done]. by eapply list_elem_of_lookup_2.
  - intros c d r Hcd Hd Hr. destruct (Hnum c d Hcd Hd) as [Hne Hcd0].
    apply list_elem_of_lookup in Hr as [i Hi].
    assert (is_Some (rows (read_frame t) !! i)) as [r0 Hr0].
    { apply lookup_lt_is_Some. rewrite <- Hlen. by eapply lookup_lt_Some. }
    destruct (Hrows i r0 Hr0) as (r' & Hr' & _ & Hcells).
    assert (r' = r) as -> by congruence.
    rewrite Hcells.
    + unfold loaded_cell. rewrite bool_decide_eq_false_2 by done.
      apply (read_frame_numeric t c d); [done|done|]. by eapply list_elem_of_lookup_2.
    + rewrite read_frame_names. apply list_elem_of_fmap in Hcd0 as (c' & [= -> _] & Hc'). done.
Qed.

Lemma numeric_conversion_changes_nothing_witness :
  ∃ df,
    convert_timestamps Sample.externals (read_frame Fixtures.two_columns) = Ok df ∧
    convert_numeric df = Ok df.
Proof.
  eexists. split; [vm_compute; reflexivity|].
  apply (numeric_conversion_changes_nothing Sample.externals Fixtures.two_columns).
  - apply (bool_decide_unpack _). vm_compute. exact I.
  - vm_compute. reflexivity.
Defined.
